(** * steampy.market: a shallow embedding of [SteamMarket]

    The development follows [src/steampy/market.py].  Python values are
    modelled by [pyval] (dictionaries are finite maps with string keys),
    exceptions by [exn], and every method of [SteamMarket] is a computation
    in the monad [M]: it reads the external world (the HTTP transport and
    the confirmation service), appends the requests it makes to a trace,
    and ends either with a value or with a raised exception. *)

From stdpp Require Import gmap strings list fin_maps.
From Stdlib Require Import ZArith String Ascii DecimalString QArith.
From Stdlib Require Import Floats.SpecFloat.

#[local] Set Warnings "-register-all".
#[local] Open Scope string_scope.
#[local] Open Scope Z_scope.

(** ** Python values *)

(** Values that [json.loads] / [Response.json] can produce, which are also
    the values stored in the form payloads.  Integers are unbounded; a JSON
    number with a fraction or exponent is a binary float. *)
Inductive pyval :=
| PNone
| PBool (b : bool)
| PInt (z : Z)
| PFloat (f : spec_float)
| PStr (s : string)
| PList (l : list pyval)
| PDict (d : gmap string pyval).

Abbreviation dict := (gmap string pyval).

(** [bool(v)] *)
Definition truthy (v : pyval) : bool :=
  match v with
  | PNone => false
  | PBool b => b
  | PInt z => negb (z =? 0)
  | PFloat (S754_zero _) => false
  | PFloat _ => true
  | PStr EmptyString => false
  | PStr _ => true
  | PList [] => false
  | PList _ => true
  | PDict d => negb (Nat.eqb (size d) 0)
  end.

(** Exact comparison of a binary float with an integer, as Python does it. *)
Definition float_eq_Z (f : spec_float) (n : Z) : bool :=
  match f with
  | S754_zero _ => n =? 0
  | S754_finite s m e =>
      let sm := if s then Z.neg m else Z.pos m in
      if 0 <=? e then sm * 2 ^ e =? n else sm =? n * 2 ^ (- e)
  | _ => false
  end.

(** [v == n] for an integer literal [n]; [True == 1] and [1.0 == 1] hold. *)
Definition py_eq_int (v : pyval) (n : Z) : bool :=
  match v with
  | PBool b => (if b then 1 else 0) =? n
  | PInt z => z =? n
  | PFloat f => float_eq_Z f n
  | _ => false
  end.

(** [type(v).__name__] *)
Definition type_name (v : pyval) : string :=
  match v with
  | PNone => "NoneType"
  | PBool _ => "bool"
  | PInt _ => "int"
  | PFloat _ => "float"
  | PStr _ => "str"
  | PList _ => "list"
  | PDict _ => "dict"
  end.

(** [str(n)] for an integer *)
Definition str_of_Z (z : Z) : string := NilZero.string_of_int (Z.to_int z).

(** [needle in hay] for two strings *)
Fixpoint contains (needle hay : string) : bool :=
  if String.prefix needle hay then true
  else match hay with
       | EmptyString => false
       | String _ hay' => contains needle hay'
       end.

(** [s.replace(c, '')] for a one-character [c] *)
Fixpoint remove_char (c : ascii) (s : string) : string :=
  match s with
  | EmptyString => EmptyString
  | String a s' => if Ascii.eqb a c then remove_char c s' else String a (remove_char c s')
  end.

(** ** Exceptions and results *)

(** The exception classes that occur.  [ApiException] and [TooManyRequests]
    are the two classes [market.py] imports from [steampy.exceptions];
    [NotLoggedIn] is what the login guard raises; [KeyError], [TypeError] and
    [AttributeError] are raised by the operations on values below;
    [ValueError], [ConnectionError] and [DecimalException] stand for what the
    transport, the JSON decoder and [decimal] may raise; [KeyboardInterrupt]
    is the one class here that does not derive from [Exception]. *)
Inductive exn_class :=
| KeyError | TypeError | AttributeError | ValueError | ConnectionError
| DecimalException
| ApiException | TooManyRequests | NotLoggedIn
| KeyboardInterrupt.

#[global] Instance exn_class_eq_dec : EqDecision exn_class.
Proof. solve_decision. Defined.

(** An exception carries its class and its message.  The message is kept as
    the pieces of the f-string that built it: literal text, an interpolated
    value [{v}], or an interpolated exception [{e}]. *)
Inductive exn :=
| Exn (cls : exn_class) (msg : list frag)
with frag :=
| FLit (s : string)
| FVal (v : pyval)
| FExn (e : exn).

Definition exn_cls (e : exn) : exn_class := let 'Exn c _ := e in c.
Definition exn_msg (e : exn) : list frag := let 'Exn _ m := e in m.

(** [isinstance(e, Exception)] *)
Definition is_Exception (e : exn) : bool :=
  match exn_cls e with
  | KeyboardInterrupt => false
  | _ => true
  end.

Inductive result (A : Type) :=
| Ok (a : A)
| Raise (e : exn).
Arguments Ok {A} a.
Arguments Raise {A} e.

(** ** Operations on values that may raise *)

Definition no_attribute (v : pyval) (attr : string) : exn :=
  Exn AttributeError [FLit "'"; FLit (type_name v); FLit "' object has no attribute '"; FLit attr; FLit "'"].

(** [v.get(k, default)] *)
Definition py_get_default (v : pyval) (k : string) (default : pyval) : result pyval :=
  match v with
  | PDict d => Ok (match d !! k with Some x => x | None => default end)
  | _ => Raise (no_attribute v "get")
  end.

(** [v.get(k)] *)
Definition py_get (v : pyval) (k : string) : result pyval := py_get_default v k PNone.

(** [v[k]] for a string key [k] *)
Definition py_getitem (v : pyval) (k : string) : result pyval :=
  match v with
  | PDict d => match d !! k with
               | Some x => Ok x
               | None => Raise (Exn KeyError [FVal (PStr k)])
               end
  | PStr _ => Raise (Exn TypeError [FLit "string indices must be integers, not 'str'"])
  | PList _ => Raise (Exn TypeError [FLit "list indices must be integers or slices, not str"])
  | _ => Raise (Exn TypeError [FLit "'"; FLit (type_name v); FLit "' object is not subscriptable"])
  end.

(** [d[k]] for a dictionary *)
Definition dict_getitem (d : dict) (k : string) : result pyval := py_getitem (PDict d) k.

(** [v[k] = x] for a string key [k]; the updated object is returned. *)
Definition py_setitem (v : pyval) (k : string) (x : pyval) : result pyval :=
  match v with
  | PDict d => Ok (PDict (<[k := x]> d))
  | PList _ => Raise (Exn TypeError [FLit "list indices must be integers or slices, not str"])
  | _ => Raise (Exn TypeError [FLit "'"; FLit (type_name v); FLit "' object does not support item assignment"])
  end.

(** The operand [v] of an unpacking [**v] in a dictionary display. *)
Definition as_mapping (v : pyval) : result dict :=
  match v with
  | PDict d => Ok d
  | _ => Raise (Exn TypeError [FLit "'"; FLit (type_name v); FLit "' object is not a mapping"])
  end.

(** [needle in v] for a string [needle] *)
Definition py_contains (needle : string) (v : pyval) : result bool :=
  match v with
  | PStr s => Ok (contains needle s)
  | PList l => Ok (existsb (fun x => match x with PStr s => String.eqb s needle | _ => false end) l)
  | PDict d => Ok (bool_decide (is_Some (d !! needle)))
  | _ => Raise (Exn TypeError [FLit "argument of type '"; FLit (type_name v); FLit "' is not iterable"])
  end.

(** [range(start, stop, step)] for a positive [step] *)
Fixpoint range_from (n : nat) (start step : Z) : list Z :=
  match n with
  | O => []
  | S n' => start :: range_from n' (start + step) step
  end.

Definition py_range (start stop step : Z) : list Z :=
  range_from (Z.to_nat ((stop - start + step - 1) / step)) start step.

(** ** [decimal.Decimal] under the default context

    [create_buy_order] computes [str(Decimal(price) * Decimal(quantity))].
    The model follows the arithmetic of Python's [decimal] module with the
    default context: precision 28, rounding [ROUND_HALF_EVEN], exponent
    limits [Emin = -999999] and [Emax = 999999], no clamping, and the traps
    [InvalidOperation] and [Overflow] enabled. *)
Module PyDecimal.

(** A finite number [(-1)^sign * coeff * 10^exp], an infinity, or a NaN
    (quiet or signaling) with its diagnostic payload. *)
Inductive Decimal :=
| DFinite (sign : bool) (coeff : N) (exp : Z)
| DInf (sign : bool)
| DNaN (sign : bool) (signaling : bool) (payload : N).

Definition prec : Z := 28.
Definition Emax : Z := 999999.
Definition Emin : Z := -999999.
Definition Etiny : Z := Emin - prec + 1.
Definition Etop : Z := Emax - prec + 1.

(** The coefficient as Python stores it: its decimal digits, ['0'] for zero. *)
Definition digits (c : N) : string := NilZero.string_of_uint (N.to_uint c).
Definition ndigits (c : N) : Z := Z.of_nat (String.length (digits c)).

Definition InvalidOperation : exn := Exn DecimalException [FLit "InvalidOperation"].
Definition Overflow : exn := Exn DecimalException [FLit "Overflow"].

(** *** [Decimal(value)] for an [int] *)
Definition of_int (z : Z) : Decimal := DFinite (z <? 0) (Z.abs_N z) 0.

(** *** [Decimal(value)] for a [str] *)

Definition is_digit (a : ascii) : bool :=
  let n := nat_of_ascii a in (Nat.leb 48 n && Nat.leb n 57)%bool.

(** White space among the code points below 256, which is what a
    character of the model's text stands for: 9 to 13, 28 to 32, 133
    and 160. *)
Definition is_space (a : ascii) : bool :=
  let n := nat_of_ascii a in
  ((Nat.leb 9 n && Nat.leb n 13) || (Nat.leb 28 n && Nat.leb n 32)
   || Nat.eqb n 133 || Nat.eqb n 160)%bool.

Definition to_lower (a : ascii) : ascii :=
  let n := nat_of_ascii a in
  if (Nat.leb 65 n && Nat.leb n 90)%bool then ascii_of_nat (n + 32) else a.

Fixpoint lower (s : string) : string :=
  match s with
  | EmptyString => EmptyString
  | String a s' => String (to_lower a) (lower s')
  end.

Fixpoint lstrip (s : string) : string :=
  match s with
  | String a s' => if is_space a then lstrip s' else s
  | EmptyString => EmptyString
  end.

Fixpoint rev_string (acc s : string) : string :=
  match s with
  | EmptyString => acc
  | String a s' => rev_string (String a acc) s'
  end.

(** [s.strip()] *)
Definition strip (s : string) : string :=
  rev_string "" (lstrip (rev_string "" (lstrip s))).

(** The longest prefix of digits, and what follows it. *)
Fixpoint span_digits (s : string) : string * string :=
  match s with
  | String a s' =>
      if is_digit a then let '(ds, rest) := span_digits s' in (String a ds, rest)
      else (EmptyString, s)
  | EmptyString => (EmptyString, EmptyString)
  end.

(** [int(ds)] for a string of digits; the empty string counts as zero. *)
Definition nat_of_digits (ds : string) : N :=
  match NilZero.uint_of_string ds with
  | Some u => N.of_uint u
  | None => 0%N
  end.

Definition split_sign (s : string) : bool * string :=
  match s with
  | String "-" r => (true, r)
  | String "+" r => (false, r)
  | _ => (false, s)
  end.

(** The optional exponent at the end of a numeric string: the letter E,
    an optional sign, one or more digits. *)
Definition parse_exponent (s : string) : option Z :=
  match s with
  | EmptyString => Some 0
  | String e r =>
      if Ascii.eqb (to_lower e) "e" then
        let '(neg, r1) := split_sign r in
        match span_digits r1 with
        | (String d ds, EmptyString) =>
            let n := Z.of_N (nat_of_digits (String d ds)) in
            Some (if neg then - n else n)
        | _ => None
        end
      else None
  end.

(** The widest exponent range of the library on a 64-bit platform.  A
    number is built exactly or not at all: its exponent may not lie
    below [MIN_ETINY] and its adjusted exponent may not exceed
    [MAX_EMAX]. *)
Definition MAX_EMAX : Z := 999999999999999999.
Definition MIN_ETINY : Z := -1999999999999999997.

Definition representable (c : N) (e : Z) : bool :=
  ((MIN_ETINY <=? e) && (ndigits c + e - 1 <=? MAX_EMAX))%bool.

(** The numeric alternative of the parser: digits with an optional
    fraction, at least one digit in all, then an optional exponent; the
    number read must be representable. *)
Definition parse_number (sign : bool) (s : string) : option Decimal :=
  let '(intpart, s1) := span_digits s in
  let '(fracpart, s2) :=
    match s1 with
    | String "." r => span_digits r
    | _ => (EmptyString, s1)
    end in
  match intpart ++ fracpart with
  | EmptyString => None
  | all_digits =>
      match parse_exponent s2 with
      | Some e =>
          let c := nat_of_digits all_digits in
          let e' := e - Z.of_nat (String.length fracpart) in
          if representable c e' then Some (DFinite sign c e') else None
      | None => None
      end
  end.

(** The special alternatives: Inf or Infinity, and NaN or sNaN followed
    by diagnostic digits, matched without regard to case. *)
Definition parse_special (sign : bool) (s : string) : option Decimal :=
  let l := lower s in
  if (String.eqb l "inf" || String.eqb l "infinity")%bool then Some (DInf sign)
  else
    let '(signaling, l1) :=
      match l with
      | String "s" r => (true, r)
      | _ => (false, l)
      end in
    if String.prefix "nan" l1 then
      match span_digits (String.substring 3 (String.length l1 - 3) l1) with
      | (diag, EmptyString) => Some (DNaN sign signaling (nat_of_digits diag))
      | _ => None
      end
    else None.

(** [Decimal(value)]: surrounding white space and underscores are
    dropped, then the text must be a number or a special value.  The
    construction never rounds.  Digits are the ASCII ones: text is a
    sequence of code points below 256, none of which is another decimal
    digit. *)
Definition of_str (value : string) : result Decimal :=
  let '(sign, s) := split_sign (remove_char "_" (strip value)) in
  match parse_number sign s with
  | Some d => Ok d
  | None =>
      match parse_special sign s with
      | Some d => Ok d
      | None => Raise InvalidOperation
      end
  end.

(** *** Rounding to the context: [Decimal._fix] *)

Definition pow10 (k : Z) : N := Z.to_N (10 ^ k).

(** [_fix] on a finite number with sign [s], coefficient [c], exponent [e]. *)
Definition fix_finite (s : bool) (c : N) (e : Z) : result Decimal :=
  if (c =? 0)%N then Ok (DFinite s 0 (Z.min (Z.max e Etiny) Emax))
  else
    let exp_min := ndigits c + e - prec in
    if Etop <? exp_min then Raise Overflow
    else
      let exp_min := if exp_min <? Etiny then Etiny else exp_min in
      if e <? exp_min then
        let digits := ndigits c + e - exp_min in
        (* fewer than zero digits are kept: round 10^(exp_min-1) to zero digits *)
        let '(c, e) := if digits <? 0 then (1%N, exp_min - 1) else (c, e) in
        let dropped := exp_min - e in
        let q := (c / pow10 dropped)%N in
        let r := (c mod pow10 dropped)%N in
        let half := (5 * pow10 (dropped - 1))%N in
        (* ROUND_HALF_EVEN *)
        let up := if ((r =? half)%N && N.even q)%bool then false else (half <=? r)%N in
        let coeff := if up then (q + 1)%N else q in
        let '(coeff, exp_min) :=
          if (up && (prec <? ndigits coeff))%bool then ((coeff / 10)%N, exp_min + 1)
          else (coeff, exp_min) in
        if Etop <? exp_min then Raise Overflow
        else Ok (DFinite s coeff exp_min)
      else Ok (DFinite s c e).

(** [_fix_nan]: a payload longer than the precision keeps its last digits. *)
Definition fix_nan (s : bool) (payload : N) : Decimal :=
  DNaN s false (if prec <? ndigits payload then (payload mod pow10 prec)%N else payload).

(** *** [a * b]: [Decimal.__mul__] *)
Definition mul (a b : Decimal) : result Decimal :=
  match a, b with
  | DNaN _ true _, _ => Raise InvalidOperation
  | _, DNaN _ true _ => Raise InvalidOperation
  | DNaN s false p, _ => Ok (fix_nan s p)
  | _, DNaN s false p => Ok (fix_nan s p)
  | DInf sa, DInf sb => Ok (DInf (xorb sa sb))
  | DInf sa, DFinite sb cb _ =>
      if (cb =? 0)%N then Raise InvalidOperation else Ok (DInf (xorb sa sb))
  | DFinite sa ca _, DInf sb =>
      if (ca =? 0)%N then Raise InvalidOperation else Ok (DInf (xorb sa sb))
  | DFinite sa ca ea, DFinite sb cb eb =>
      fix_finite (xorb sa sb) (ca * cb) (ea + eb)
  end.

(** *** [str(d)]: [Decimal.__str__] *)

Fixpoint zeros (n : nat) : string :=
  match n with
  | O => EmptyString
  | S n' => String "0" (zeros n')
  end.

(** ["%+d" % z] *)
Definition signed_str (z : Z) : string :=
  if z <? 0 then str_of_Z z else "+" ++ str_of_Z z.

Definition to_str (d : Decimal) : string :=
  match d with
  | DInf s => (if s then "-" else "") ++ "Infinity"
  | DNaN s signaling p =>
      (if s then "-" else "") ++ (if signaling then "sNaN" else "NaN")
        ++ (if (p =? 0)%N then "" else digits p)
  | DFinite s c e =>
      let int := digits c in
      let len := ndigits c in
      let leftdigits := e + len in
      let dotplace := if ((e <=? 0) && (-6 <? leftdigits))%bool then leftdigits else 1 in
      let '(intpart, fracpart) :=
        if dotplace <=? 0 then ("0", "." ++ zeros (Z.to_nat (- dotplace)) ++ int)
        else if len <=? dotplace then (int ++ zeros (Z.to_nat (dotplace - len)), "")
        else (String.substring 0 (Z.to_nat dotplace) int,
              "." ++ String.substring (Z.to_nat dotplace) (Z.to_nat (len - dotplace)) int) in
      let exp := if leftdigits =? dotplace then "" else "E" ++ signed_str (leftdigits - dotplace) in
      (if s then "-" else "") ++ intpart ++ fracpart ++ exp
  end.

(** The rational value of a finite number. *)
Definition value (d : Decimal) : option Q :=
  match d with
  | DFinite s c e =>
      Some (inject_Z (if s then - Z.of_N c else Z.of_N c) * Qpower (inject_Z 10) e)%Q
  | _ => None
  end.

End PyDecimal.


(** ** The external world and the monad of methods *)

(** What [requests] hands back for one request: the status code, the body
    text, and what [.json()] gives on it (a value, or the decoder's error). *)
Record response := {
  status_code : Z;
  text : string;
  json : result pyval;
}.

(** Everything a method does to the outside world, in order.  [Get] is
    [Session.get(url)] and [GetQuery] is [Session.get(url, params=params)];
    [Post] holds the form payload as it is when the request is sent. *)
Inductive event :=
| Get (url : string)
| GetQuery (url : string) (params : dict)
| Post (url : string) (data headers : dict)
| GetConfirmations (identity_secret steamid : string)
| SendConfirmation (identity_secret steamid : string) (confirmation : pyval)
| ConfirmSellListing (identity_secret steamid : string) (asset_id : string)
| Sleep (seconds : Z).

Abbreviation trace := (list event).

(** The world answers each interaction from the history up to and including
    it: the transport ([Session.get], [Session.post]) and the three entry
    points of [ConfirmationExecutor] that [market.py] calls.  Any answer may
    be an exception. *)
Record world := {
  http : trace → result response;
  get_confirmations : trace → result (list pyval);
  send_confirmation : trace → result pyval;
  confirm_sell_listing : trace → result pyval;
}.

Definition M (A : Type) : Type := world → trace → result A * trace.

Definition ret {A} (a : A) : M A := fun _ t => (Ok a, t).

Definition raise {A} (e : exn) : M A := fun _ t => (Raise e, t).

Definition bind {A B} (m : M A) (k : A → M B) : M B :=
  fun w t =>
    match m w t with
    | (Ok a, t') => k a w t'
    | (Raise e, t') => (Raise e, t')
    end.

(** A pure step that may raise. *)
Definition lift {A} (r : result A) : M A := fun _ t => (r, t).

(** One interaction: record it, then take the world's answer to it. *)
Definition perform {A} (ev : event) (answer : world → trace → result A) : M A :=
  fun w t => let t' := (t ++ [ev])%list in (answer w t', t').

(** [try: m  except ...: h]: the first handler of [h] that accepts the
    exception runs; with none, the exception propagates. *)
Definition try_except {A} (m : M A) (h : exn → option (M A)) : M A :=
  fun w t =>
    match m w t with
    | (Ok a, t') => (Ok a, t')
    | (Raise e, t') =>
        match h e with
        | Some k => k w t'
        | None => (Raise e, t')
        end
    end.

(** The monad is used through stdpp's notations [x ← m; k] and [m;; k]. *)
#[global] Instance M_ret : MRet M := @ret.
#[global] Instance M_bind : MBind M := fun A B k m => bind m k.

(** [for x in xs: body x] *)
Fixpoint for_each {A} (xs : list A) (body : A → M unit) : M unit :=
  match xs with
  | [] => ret tt
  | x :: xs' => body x;; for_each xs' body
  end.

(** [for x in xs: acc = body acc x] *)
Fixpoint for_fold {A S} (xs : list A) (acc : S) (body : S → A → M S) : M S :=
  match xs with
  | [] => ret acc
  | x :: xs' => acc' ← body acc x; for_fold xs' acc' body
  end.

(** [self._session.get(url)] *)
Definition session_get (url : string) : M response := perform (Get url) http.

(** [self._session.get(url, params=params)] *)
Definition session_get_query (url : string) (params : dict) : M response :=
  perform (GetQuery url params) http.

(** [self._session.post(url, data, headers=headers)] *)
Definition session_post (url : string) (data headers : dict) : M response :=
  perform (Post url data headers) http.

(** [self._session.post(url, data, headers=headers).json()] *)
Definition session_post_json (url : string) (data headers : dict) : M pyval :=
  r ← session_post url data headers; lift (json r).

(** [time.sleep(seconds)] *)
Definition sleep (seconds : Z) : M unit :=
  perform (Sleep seconds) (fun _ _ => Ok tt).

(** [HTTPStatus.OK] and [HTTPStatus.TOO_MANY_REQUESTS] *)
Definition HTTPStatus_OK : Z := 200.
Definition HTTPStatus_TOO_MANY_REQUESTS : Z := 429.

(** ** Imported names whose source is not at hand

    The constant [SteamUrl.COMMUNITY_URL] of [steampy.models], the helpers of
    [steampy.utils] that extract listings from pages, and the library
    functions [urllib.parse.quote], [json.loads] and [int] are taken as
    parameters: every statement below holds for whatever they compute.  The
    helpers do no input or output, and any of them may raise. *)
Class Imports := {
  COMMUNITY_URL : string;
  quote : string → string;
  json_loads : string → result pyval;
  int_of_str : string → result Z;
  text_between : string → string → string → result string;
  get_listing_id_to_assets_address_from_html : pyval → result pyval;
  get_market_listings_from_html : pyval → result pyval;
  get_market_sell_listings_from_api : pyval → result pyval;
  merge_items_with_descriptions_from_listing : pyval → pyval → pyval → result pyval;
}.

(** [GameOptions] and [Currency] of [steampy.models]: only the fields read
    here. *)
Record GameOptions := {
  app_id : string;
  context_id : string;
}.

Record Currency := {
  currency_value : Z;
}.

(** ** [SteamMarket] *)

(** [requests.Session]: of its state only the cookies are read, a dictionary
    of cookie names and values per domain. *)
Record Session := {
  cookies : gmap string dict;
}.

(** [self._session.cookies.get_dict(domain)] *)
Definition get_dict (s : Session) (domain : string) : dict :=
  match cookies s !! domain with
  | Some d => d
  | None => ∅
  end.

Record SteamMarket := {
  _session : Session;
  _steam_guard : option (gmap string string);
  _session_id : option string;
  was_login_executed : bool;
}.

(** [SteamMarket.__init__] *)
Definition init (session : Session) : SteamMarket :=
  {| _session := session; _steam_guard := None; _session_id := None;
     was_login_executed := false |}.

(** [SteamMarket._set_login_executed] *)
Definition _set_login_executed (self : SteamMarket) (steamguard : gmap string string)
    (session_id : string) : SteamMarket :=
  {| _session := _session self; _steam_guard := Some steamguard;
     _session_id := Some session_id; was_login_executed := true |}.

(** [self._session_id] as a value *)
Definition session_id_value (self : SteamMarket) : pyval :=
  match _session_id self with
  | Some s => PStr s
  | None => PNone
  end.

(** [self._steam_guard[k]] *)
Definition steam_guard_getitem (self : SteamMarket) (k : string) : result string :=
  match _steam_guard self with
  | None => Raise (Exn TypeError [FLit "'NoneType' object is not subscriptable"])
  | Some g => match g !! k with
              | Some v => Ok v
              | None => Raise (Exn KeyError [FVal (PStr k)])
              end
  end.

(** Modelled from the spec: the decorator [login_required] of
    [steampy.utils], whose source is missing.  The spec has it check the flag
    set at login at the top of each session-requiring operation and fail with
    [NotLoggedIn] before any request is built. *)
Definition login_required {A} (self : SteamMarket) (method : M A) : M A :=
  if was_login_executed self then method
  else raise (Exn NotLoggedIn []).

(** The double quote and the line feed, for the string literals that hold them. *)
Definition dquote : string := String (ascii_of_nat 34) EmptyString.
Definition newline : string := String (ascii_of_nat 10) EmptyString.

Section Methods.
Context `{Imports}.

(** *** Prices: [fetch_price] and [fetch_price_history] *)

Definition too_many_requests : exn :=
  Exn TooManyRequests [FLit "You can fetch maximum 20 prices in 60s period"].

Definition fetch_price (self : SteamMarket) (item_hash_name : string) (game : GameOptions)
    (currency : Currency) (country : string) : M pyval :=
  let url := COMMUNITY_URL ++ "/market/priceoverview/" in
  let params : dict :=
    {[ "country" := PStr country;
       "currency" := PInt (currency_value currency);
       "appid" := PStr (app_id game);
       "market_hash_name" := PStr item_hash_name ]} in
  response ← session_get_query url params;
  if status_code response =? HTTPStatus_TOO_MANY_REQUESTS
  then raise too_many_requests
  else lift (json response).

Definition fetch_price_history (self : SteamMarket) (item_hash_name : string)
    (game : GameOptions) : M pyval :=
  login_required self (
    let url := COMMUNITY_URL ++ "/market/pricehistory/" in
    let params : dict :=
      {[ "country" := PStr "PL";
         "appid" := PStr (app_id game);
         "market_hash_name" := PStr item_hash_name ]} in
    response ← session_get_query url params;
    if status_code response =? HTTPStatus_TOO_MANY_REQUESTS
    then raise too_many_requests
    else lift (json response)).

(** *** Listing retrieval: [get_my_market_listings] *)

Definition problem_getting_listings (code : Z) : exn :=
  Exn ApiException [FLit "There was a problem getting the listings. HTTP code: "; FVal (PInt code)].

(** [listings['sell_listings'] = {**listings['sell_listings'], **listings_2['sell_listings']}]:
    each operand of the display is evaluated and unpacked in turn, the
    entries of the second overwrite and extend those of the first, and the
    result is stored under ['sell_listings']. *)
Definition merge_sell_listings (listings listings_2 : pyval) : result pyval :=
  match py_getitem listings "sell_listings" with
  | Raise e => Raise e
  | Ok mine =>
      match as_mapping mine with
      | Raise e => Raise e
      | Ok mine =>
          match py_getitem listings_2 "sell_listings" with
          | Raise e => Raise e
          | Ok theirs =>
              match as_mapping theirs with
              | Raise e => Raise e
              | Ok theirs => py_setitem listings "sell_listings" (PDict (theirs ∪ mine))
              end
          end
      end
  end.

(** The URL of the single bulk request. *)
Definition bulk_url (n_showing : Z) : string :=
  COMMUNITY_URL ++ "/market/mylistings/render/?query=&start=" ++ str_of_Z n_showing
    ++ "&count=" ++ str_of_Z (-1).

(** The URL of one request of the paginated loop. *)
Definition page_url (start : Z) : string :=
  COMMUNITY_URL ++ "/market/mylistings/?query=&start=" ++ str_of_Z start
    ++ "&count=" ++ str_of_Z 100.

(** One further fetch and its merge into [listings]: the block that both
    branches of the source repeat after they have built [url]. *)
Definition fetch_and_merge (url : string) (listings : pyval) : M pyval :=
  response ← session_get url;
  if negb (status_code response =? HTTPStatus_OK)
  then raise (problem_getting_listings (status_code response))
  else
    jresp ← lift (json response);
    hovers ← lift (py_get jresp "hovers");
    listing_id_to_assets_address ← lift (get_listing_id_to_assets_address_from_html hovers);
    results_html ← lift (py_get jresp "results_html");
    listings_2 ← lift (get_market_sell_listings_from_api results_html);
    assets ← lift (py_get jresp "assets");
    listings_2 ← lift (merge_items_with_descriptions_from_listing
                          listings_2 listing_id_to_assets_address assets);
    lift (merge_sell_listings listings listings_2).

(** The offsets the paginated loop asks for: [n_showing + i] for [i] in
    [range(0, n_total, 100)]. *)
Definition loop_offsets (n_showing n_total : Z) : list Z :=
  (λ i, n_showing + i) <$> py_range 0 n_total 100.

(** The fetches after the landing page, once the markers are parsed. *)
Definition fetch_remaining (n_showing n_total : Z) (listings : pyval) : M pyval :=
  if ((n_showing <? n_total) && (n_total <? 1000))%bool
  then fetch_and_merge (bulk_url n_showing) listings
  else for_fold (py_range 0 n_total 100) listings
         (λ listings i, fetch_and_merge (page_url (n_showing + i)) listings).

Definition end_marker : string :=
  "<span id=" ++ dquote ++ "tabContentsMyActiveMarketListings_end" ++ dquote ++ ">".
Definition total_marker : string :=
  "<span id=" ++ dquote ++ "tabContentsMyActiveMarketListings_total" ++ dquote ++ ">".

Definition get_my_market_listings (self : SteamMarket) : M pyval :=
  login_required self (
    response ← session_get (COMMUNITY_URL ++ "/market");
    if negb (status_code response =? HTTPStatus_OK)
    then raise (problem_getting_listings (status_code response))
    else
      assets_text ← lift (text_between (text response) "var g_rgAssets = " (";" ++ newline));
      assets_descriptions ← lift (json_loads assets_text);
      listing_id_to_assets_address ←
        lift (get_listing_id_to_assets_address_from_html (PStr (text response)));
      listings ← lift (get_market_listings_from_html (PStr (text response)));
      listings ← lift (merge_items_with_descriptions_from_listing
                          listings listing_id_to_assets_address assets_descriptions);
      if contains end_marker (text response) then
        showing_text ← lift (text_between (text response) end_marker "</span>");
        n_showing ← lift (int_of_str showing_text);
        total_text ← lift (text_between (text response) total_marker "</span>");
        n_total ← lift (int_of_str (remove_char "," total_text));
        fetch_remaining n_showing n_total listings
      else ret listings).

(** *** Confirmation service *)

(** [SteamMarket._confirm_sell_listing]: build the executor from the guard
    record, then ask it to confirm the sell listing of this one asset. *)
Definition _confirm_sell_listing (self : SteamMarket) (asset_id : string) : M pyval :=
  identity_secret ← lift (steam_guard_getitem self "identity_secret");
  steamid ← lift (steam_guard_getitem self "steamid");
  perform (ConfirmSellListing identity_secret steamid asset_id) confirm_sell_listing.

(** [SteamMarket._confirm_buy_listing]: fetch every outstanding
    confirmation and send an acceptance for each. *)
Definition _confirm_buy_listing (self : SteamMarket) : M pyval :=
  identity_secret ← lift (steam_guard_getitem self "identity_secret");
  steamid ← lift (steam_guard_getitem self "steamid");
  confirmations ← perform (GetConfirmations identity_secret steamid) get_confirmations;
  for_each confirmations (λ confirmation,
    perform (SendConfirmation identity_secret steamid confirmation) send_confirmation;;
    mret tt);;
  mret (PDict {[ "success" := PBool true;
                 "message" := PStr "All pending confirmations have been accepted." ]}).

(** *** Orders *)

Definition listings_referer (game : GameOptions) (market_name : string) : dict :=
  {[ "Referer" := PStr (COMMUNITY_URL ++ "/market/listings/" ++ app_id game ++ "/"
                          ++ quote market_name) ]}.

Definition create_sell_order_data (self : SteamMarket) (assetid : string) (game : GameOptions)
    (money_to_receive : string) : dict :=
  {[ "assetid" := PStr assetid;
     "sessionid" := session_id_value self;
     "contextid" := PStr (context_id game);
     "appid" := PStr (app_id game);
     "amount" := PInt 1;
     "price" := PStr money_to_receive ]}.

Definition inventory_referer (steamid : string) : dict :=
  {[ "Referer" := PStr (COMMUNITY_URL ++ "/profiles/" ++ steamid ++ "/inventory") ]}.

Definition create_sell_order (self : SteamMarket) (assetid : string) (game : GameOptions)
    (money_to_receive : string) : M pyval :=
  login_required self (
    let data := create_sell_order_data self assetid game money_to_receive in
    steamid ← lift (steam_guard_getitem self "steamid");
    let headers := inventory_referer steamid in
    response ← session_post_json (COMMUNITY_URL ++ "/market/sellitem/") data headers;
    message ← lift (py_get_default response "message" (PStr ""));
    has_pending_confirmation ← lift (py_contains "pending confirmation" message);
    needs_mobile_confirmation ← lift (py_get response "needs_mobile_confirmation");
    confirm ←
      (if truthy needs_mobile_confirmation then mret true
       else success ← lift (py_get response "success");
            mret (negb (truthy success) && has_pending_confirmation)%bool);
    if confirm : bool then _confirm_sell_listing self assetid
    else mret response).

Definition problem_creating_order (success : pyval) : exn :=
  Exn ApiException
    [FLit "There was a problem creating the order. Are you using the right currency? success: ";
     FVal success].

Definition problem_canceling_order (success : pyval) : exn :=
  Exn ApiException [FLit "There was a problem canceling the order. success: "; FVal success].

Definition create_buy_order_data (self : SteamMarket) (market_name : string)
    (price_total : PyDecimal.Decimal) (quantity : Z) (game : GameOptions)
    (currency : Currency) : dict :=
  {[ "sessionid" := session_id_value self;
     "currency" := PInt (currency_value currency);
     "appid" := PStr (app_id game);
     "market_hash_name" := PStr market_name;
     "price_total" := PStr (PyDecimal.to_str price_total);
     "quantity" := PInt quantity ]}.

Definition create_buy_order (self : SteamMarket) (market_name price_single_item : string)
    (quantity : Z) (game : GameOptions) (currency : Currency) : M pyval :=
  login_required self (
    price ← lift (PyDecimal.of_str price_single_item);
    price_total ← lift (PyDecimal.mul price (PyDecimal.of_int quantity));
    let data := create_buy_order_data self market_name price_total quantity game currency in
    let headers := listings_referer game market_name in
    response ← session_post_json (COMMUNITY_URL ++ "/market/createbuyorder/") data headers;
    success ← lift (py_get response "success");
    if negb (py_eq_int success 1)
    then raise (problem_creating_order success)
    else mret response).

Definition problem_removing_listing (code : Z) : exn :=
  Exn ApiException [FLit "There was a problem removing the listing. HTTP code: "; FVal (PInt code)].

Definition cancel_sell_order_data (self : SteamMarket) : dict :=
  {[ "sessionid" := session_id_value self ]}.

Definition cancel_sell_order (self : SteamMarket) (sell_listing_id : string) : M unit :=
  login_required self (
    let data := cancel_sell_order_data self in
    let headers : dict := {[ "Referer" := PStr (COMMUNITY_URL ++ "/market/") ]} in
    let url := COMMUNITY_URL ++ "/market/removelisting/" ++ sell_listing_id in
    response ← session_post url data headers;
    if negb (status_code response =? HTTPStatus_OK)
    then raise (problem_removing_listing (status_code response))
    else mret tt).

Definition cancel_buy_order_data (self : SteamMarket) (buy_order_id : pyval) : dict :=
  {[ "sessionid" := session_id_value self; "buy_orderid" := buy_order_id ]}.

Definition market_referer : dict := {[ "Referer" := PStr (COMMUNITY_URL ++ "/market") ]}.

Definition cancel_buy_order (self : SteamMarket) (buy_order_id : pyval) : M pyval :=
  login_required self (
    let data := cancel_buy_order_data self buy_order_id in
    let headers := market_referer in
    response ← session_post_json (COMMUNITY_URL ++ "/market/cancelbuyorder/") data headers;
    success ← lift (py_get response "success");
    if negb (py_eq_int success 1)
    then raise (problem_canceling_order success)
    else mret response).

(** *** [buy_item] *)

(** The form payload of the first submission. *)
Definition buy_item_data (sessionid : pyval) (price fee : Z) (currency : Currency) : dict :=
  {[ "sessionid" := sessionid;
     "currency" := PInt (currency_value currency);
     "subtotal" := PInt (price - fee);
     "fee" := PInt fee;
     "total" := PInt price;
     "quantity" := PStr "1";
     "billing_state" := PStr "";
     "save_my_address" := PStr "0";
     "confirmation" := PStr "0" ]}.

Definition buylisting_url (market_id : string) : string :=
  COMMUNITY_URL ++ "/market/buylisting/" ++ market_id.

(** [response.get('wallet_info') and response.get('wallet_info').get('success') == 1] *)
Definition wallet_success (response : pyval) : result bool :=
  match py_get response "wallet_info" with
  | Raise e => Raise e
  | Ok wallet_info =>
      if truthy wallet_info then
        match py_get wallet_info "success" with
        | Raise e => Raise e
        | Ok success => Ok (py_eq_int success 1)
        end
      else Ok false
  end.

(** [response.get('success') == 22 and response.get('confirmation', {}).get('confirmation_id')] *)
Definition confirmation_required (response : pyval) : result bool :=
  match py_get response "success" with
  | Raise e => Raise e
  | Ok success =>
      if py_eq_int success 22 then
        match py_get_default response "confirmation" (PDict ∅) with
        | Raise e => Raise e
        | Ok confirmation =>
            match py_get confirmation "confirmation_id" with
            | Raise e => Raise e
            | Ok confirmation_id => Ok (truthy confirmation_id)
            end
        end
      else Ok false
  end.

Definition invalid_confirmation_data : exn :=
  Exn ApiException [FLit "Steam requested confirmation, but returned invalid data (confirmation_id)."].

Definition second_step_error (e : exn) : exn :=
  Exn ApiException [FLit "An error occurred during the second confirmation step: "; FExn e].

(** The two [except] clauses of the confirmation step, in order:
    [except (KeyError, TypeError)] and then [except Exception as e]. *)
Definition confirmation_handlers (e : exn) : option (M pyval) :=
  match exn_cls e with
  | KeyError | TypeError => Some (raise invalid_confirmation_data)
  | _ => if is_Exception e then Some (raise (second_step_error e)) else None
  end.

(** The message of the final failure:
    [message = response.get('message')], replaced by the one of
    [wallet_info] when it is falsy and [wallet_info] is truthy. *)
Definition failure_message (response : pyval) : result pyval :=
  match py_get response "message" with
  | Raise e => Raise e
  | Ok message =>
      if truthy message then Ok message
      else
        match py_get response "wallet_info" with
        | Raise e => Raise e
        | Ok wallet_info =>
            if truthy wallet_info then
              match py_getitem response "wallet_info" with
              | Raise e => Raise e
              | Ok wallet_info => py_get wallet_info "message"
              end
            else Ok message
        end
  end.

Definition failed_to_buy (message : pyval) : exn :=
  Exn ApiException [FLit "Failed to buy item. Steam message: "; FVal message].

Definition buy_item (self : SteamMarket) (market_name market_id : string) (price fee : Z)
    (game : GameOptions) (currency : Currency) : M pyval :=
  login_required self (
    sessionid ← lift (dict_getitem (get_dict (_session self) "steamcommunity.com") "sessionid");
    let data := buy_item_data sessionid price fee currency in
    let headers := listings_referer game market_name in
    response ← session_post_json (buylisting_url market_id) data headers;
    paid ← lift (wallet_success response);
    if paid : bool then mret response
    else
      pending ← lift (confirmation_required response);
      if pending : bool then
        try_except (
          confirmation ← lift (py_getitem response "confirmation");
          confirmation_id ← lift (py_getitem confirmation "confirmation_id");
          let data := <["confirmation" := confirmation_id]> data in
          _confirm_buy_listing self;;
          sleep 1;;
          final_response ← session_post_json (buylisting_url market_id) data headers;
          mret final_response
        ) confirmation_handlers
      else
        message ← lift (failure_message response);
        raise (failed_to_buy message)).

End Methods.

(** ** The behaviour as the specification words it

    Two definitions written from the specification's sentences, to be
    compared with [loop_offsets] and [failure_message] above. *)

(** Offsets of the paginated plan: start at [n_showing] and advance by 100
    until the offset reaches [n_total]. *)
Definition spec_page_offsets (n_showing n_total : Z) : list Z :=
  py_range n_showing n_total 100.

(** Message of the final failure of [buy_item]: the top-level [message]
    field, and the [message] field of [wallet_info] when the top-level one is
    absent. *)
Definition spec_failure_message (d : dict) : pyval :=
  match d !! "message" with
  | Some m => m
  | None =>
      match d !! "wallet_info" with
      | Some (PDict wallet_info) => default PNone (wallet_info !! "message")
      | _ => PNone
      end
  end.

(** ** A concrete setting

    One instance of the imported helpers, an account that has logged in, and
    a few scripted worlds, on which the statements below are exercised. *)
Module Example.

(** What follows the first occurrence of [needle] in [hay]. *)
Fixpoint after (needle hay : string) : option string :=
  if String.prefix needle hay
  then Some (String.substring (String.length needle) (String.length hay - String.length needle) hay)
  else match hay with
       | EmptyString => None
       | String _ hay' => after needle hay'
       end.

(** What precedes the first occurrence of [needle] in [hay]. *)
Fixpoint before (needle hay : string) : option string :=
  if String.prefix needle hay then Some EmptyString
  else match hay with
       | EmptyString => None
       | String a hay' => String a <$> before needle hay'
       end.

Definition substring_not_found : exn := Exn ValueError [FLit "substring not found"].

Definition between (text begin end_ : string) : result string :=
  match after begin text with
  | None => Raise substring_not_found
  | Some rest =>
      match before end_ rest with
      | None => Raise substring_not_found
      | Some inner => Ok inner
      end
  end.

Definition parse_int (s : string) : result Z :=
  match NilZero.int_of_string s with
  | Some i => Ok (Z.of_int i)
  | None => Raise (Exn ValueError [FLit "invalid literal for int() with base 10"])
  end.

Definition no_listings : pyval :=
  PDict {[ "buy_orders" := PDict ∅; "sell_listings" := PDict ∅ ]}.

Definition imports : Imports := {|
  COMMUNITY_URL := "https://steamcommunity.com";
  quote := λ s, s;
  json_loads := λ _, Ok (PDict ∅);
  int_of_str := parse_int;
  text_between := between;
  get_listing_id_to_assets_address_from_html := λ _, Ok (PDict ∅);
  get_market_listings_from_html := λ _, Ok no_listings;
  get_market_sell_listings_from_api := λ _, Ok (PDict {[ "sell_listings" := PDict ∅ ]});
  merge_items_with_descriptions_from_listing := λ listings _ _, Ok listings;
|}.

Definition guard : gmap string string :=
  {[ "steamid" := "76561198000000000"; "shared_secret" := "c2hhcmVk";
     "identity_secret" := "aWRlbnRpdHk=" ]}.

Definition session : Session :=
  {| cookies := {[ "steamcommunity.com" := {[ "sessionid" := PStr "abcdef0123456789" ]} ]} |}.

(** The account before and after login. *)
Definition fresh : SteamMarket := init session.
Definition logged_in : SteamMarket := _set_login_executed fresh guard "abcdef0123456789".

Definition csgo : GameOptions := {| app_id := "730"; context_id := "2" |}.
Definition usd : Currency := {| currency_value := 1 |}.

Definition json_response (v : pyval) : response :=
  {| status_code := 200; text := ""; json := Ok v |}.

(** A world whose transport answers the [n]-th interaction (counted from
    one) with [answers n], and whose confirmation service lists
    [confirmations] and accepts whatever it is sent. *)
Definition scripted (answers : nat → result response) (confirmations : list pyval) : world :=
  {| http := λ t, answers (List.length t);
     get_confirmations := λ _, Ok confirmations;
     send_confirmation := λ _, Ok (PDict {[ "success" := PBool true ]});
     confirm_sell_listing := λ _, Ok (PDict {[ "success" := PBool true ]}) |}.

(** A world that answers every request with the same JSON value. *)
Definition always (v : pyval) : world := scripted (λ _, Ok (json_response v)) [].

(** A world that answers every request with the same status and no body. *)
Definition status_only (code : Z) : world :=
  scripted (λ _, Ok {| status_code := code; text := "";
                       json := Raise (Exn ValueError [FLit "Expecting value"]) |}) [].

(** First answer of the purchase: confirmation required. *)
Definition confirmation_block : dict := {[ "confirmation_id" := PStr "15431813067" ]}.

Definition needs_confirmation_fields : dict :=
  {[ "success" := PInt 22; "confirmation" := PDict confirmation_block ]}.

Definition needs_confirmation : pyval := PDict needs_confirmation_fields.

(** Answer to the resubmitted purchase. *)
Definition purchased : pyval :=
  PDict {[ "wallet_info" := PDict {[ "success" := PInt 1; "wallet_balance" := PStr "1234" ]} ]}.

Definition two_pending : list pyval :=
  [PDict {[ "id" := PStr "c1" ]}; PDict {[ "id" := PStr "c2" ]}].

(** The purchase that needs a confirmation: two confirmations are
    outstanding, and the resubmission is the fifth interaction. *)
Definition confirming_world : world :=
  scripted (λ n, Ok (json_response (if (n =? 1)%nat then needs_confirmation else purchased)))
           two_pending.

(** A first answer that carries both the paid wallet block and the
    confirmation request. *)
Definition paid_and_pending : dict :=
  {[ "wallet_info" := PDict {[ "success" := PInt 1 ]};
     "success" := PInt 22;
     "confirmation" := PDict confirmation_block ]}.

(** A world whose confirmation service fails with [e] when asked for the
    outstanding confirmations. *)
Definition failing_confirmations (first : pyval) (e : exn) : world :=
  {| http := λ _, Ok (json_response first);
     get_confirmations := λ _, Raise e;
     send_confirmation := λ _, Ok (PDict {[ "success" := PBool true ]});
     confirm_sell_listing := λ _, Ok (PDict {[ "success" := PBool true ]}) |}.

(** A refusal with a top-level message. *)
Definition unavailable : dict :=
  {[ "success" := PInt 8; "message" := PStr "The listing is no longer available" ]}.

(** A first answer whose [confirmation] field is the identifier itself
    instead of an object holding it. *)
Definition mistyped_confirmation : pyval :=
  PDict {[ "success" := PInt 22; "confirmation" := PStr "15431813067" ]}.

(** A first answer whose [confirmation] field is null. *)
Definition null_confirmation : pyval :=
  PDict {[ "success" := PInt 22; "confirmation" := PNone ]}.

(** A refusal with an empty top-level message and the reason in the
    wallet block. *)
Definition refused : dict :=
  {[ "message" := PStr "";
     "wallet_info" := PDict {[ "success" := PInt 2; "message" := PStr "Insufficient funds" ]} ]}.

(** A sale that the marketplace holds until it is confirmed. *)
Definition pending_sale : pyval :=
  PDict {[ "success" := PBool false;
           "message" := PStr "There is a pending confirmation for this item" ]}.

(** A landing page that shows 10 of 1,005 listings. *)
Definition landing_text : string :=
  "var g_rgAssets = [];" ++ newline
    ++ end_marker ++ "10</span>" ++ total_marker ++ "1,005</span>".

Definition page_response (body : string) : response :=
  {| status_code := 200; text := body;
     json := Ok (PDict {[ "hovers" := PStr ""; "results_html" := PStr ""; "assets" := PDict ∅ ]}) |}.

Definition listing_world : world :=
  scripted (λ n, Ok (page_response (if (n =? 1)%nat then landing_text else ""))) [].

(** A landing page without the markers of a longer list. *)
Definition plain_text : string := "var g_rgAssets = [];" ++ newline ++ "<div>My listings</div>".

Definition plain_world : world := scripted (λ _, Ok (page_response plain_text)) [].

(** An account whose guard record has lost its fields. *)
Definition unguarded : SteamMarket := _set_login_executed fresh ∅ "abcdef0123456789".

(** An account whose guard record holds the account id only. *)
Definition half_guarded : SteamMarket :=
  _set_login_executed fresh {[ "steamid" := "76561198000000000" ]} "abcdef0123456789".

(** An account that has logged in without the session cookie. *)
Definition cookieless : SteamMarket :=
  _set_login_executed (init {| cookies := ∅ |}) guard "abcdef0123456789".

(** A world whose confirmation service refuses to accept. *)
Definition refusing_world : world :=
  {| http := λ t, Ok (json_response (if (List.length t =? 1)%nat then needs_confirmation
                                     else purchased));
     get_confirmations := λ _, Ok two_pending;
     send_confirmation := λ _, Raise (Exn ConnectionError [FLit "Connection aborted."]);
     confirm_sell_listing := λ _, Ok (PDict {[ "success" := PBool true ]}) |}.


(** A submit response that asks for a mobile confirmation and whose message
    is null. *)
Definition flagged_null_message : dict :=
  {[ "needs_mobile_confirmation" := PBool true; "message" := PNone ]}.

(** A world whose third answer is a server error. *)
Definition failing_third_page : world :=
  scripted (λ n, Ok (if (n =? 3)%nat
                     then {| status_code := 500; text := "";
                             json := Raise (Exn ValueError [FLit "Expecting value"]) |}
                     else page_response "")) [].

End Example.

(** Two listing collections with a shared sell listing and a buy listing each. *)
Module MergeExample.

Definition first : dict :=
  {[ "sell_listings" := PDict {[ "s1" := PInt 100; "s2" := PInt 200 ]};
     "buy_orders" := PDict {[ "b1" := PInt 10 ]} ]}.

Definition second : dict :=
  {[ "sell_listings" := PDict {[ "s2" := PInt 250; "s3" := PInt 300 ]};
     "buy_orders" := PDict {[ "b2" := PInt 20 ]} ]}.

End MergeExample.

(** * Properties *)

(** ** The monad *)

Lemma bind_unfold {A B} (m : M A) (k : A → M B) w t :
  (x ← m; k x) w t =
  match m w t with
  | (Ok a, t') => k a w t'
  | (Raise e, t') => (Raise e, t')
  end.
Proof. reflexivity. Qed.

Lemma bind_lift_Ok {A B} (r : result A) (a : A) (k : A → M B) w t :
  r = Ok a → (x ← lift r; k x) w t = k a w t.
Proof. intros ->. reflexivity. Qed.

Lemma bind_lift_Raise {A B} (r : result A) e (k : A → M B) w t :
  r = Raise e → (x ← lift r; k x) w t = (Raise e, t).
Proof. intros ->. reflexivity. Qed.

Lemma bind_perform {A B} ev (answer : world → trace → result A) (k : A → M B) w t :
  (x ← perform ev answer; k x) w t =
  match answer w (t ++ [ev])%list with
  | Ok a => k a w (t ++ [ev])%list
  | Raise e => (Raise e, (t ++ [ev])%list)
  end.
Proof. rewrite bind_unfold. unfold perform. simpl. destruct (answer w _); reflexivity. Qed.

Lemma bind_run {A B} (m : M A) (k : A → M B) w t a t' :
  m w t = (Ok a, t') → (x ← m; k x) w t = k a w t'.
Proof. intros Hm. rewrite bind_unfold, Hm. reflexivity. Qed.

Lemma bind_run_Raise {A B} (m : M A) (k : A → M B) w t e t' :
  m w t = (Raise e, t') → (x ← m; k x) w t = (Raise e, t').
Proof. intros Hm. rewrite bind_unfold, Hm. reflexivity. Qed.

Lemma session_post_json_run url data headers w t r v :
  http w (t ++ [Post url data headers])%list = Ok r →
  json r = Ok v →
  session_post_json url data headers w t = (Ok v, (t ++ [Post url data headers])%list).
Proof.
  intros Hr Hj. unfold session_post_json, session_post.
  rewrite bind_perform, Hr. unfold lift. rewrite Hj. reflexivity.
Qed.

Lemma sleep_run seconds w t : sleep seconds w t = (Ok tt, (t ++ [Sleep seconds])%list).
Proof. reflexivity. Qed.

(** Unfolds the monad down to matches on the world's answers. *)
Ltac unfold_monad :=
  unfold session_post_json, session_post, session_get, session_get_query, sleep, perform, lift,
    mbind, M_bind, bind, mret, M_ret, ret, raise in *.

(** ** Login guard *)

Section Login.
Context `{Imports}.

Lemma login_required_refuses {A} self (method : M A) w t :
  was_login_executed self = false →
  login_required self method w t = (Raise (Exn NotLoggedIn []), t).
Proof. intros Hl. unfold login_required. rewrite Hl. reflexivity. Qed.

Lemma login_required_passes {A} self (method : M A) :
  was_login_executed self = true → login_required self method = method.
Proof. intros Hl. unfold login_required. rewrite Hl. reflexivity. Qed.

(** C8.  Each of the five mutating operations, called on an account whose
    login has not been executed, ends by raising [NotLoggedIn] and leaves
    the trace as it found it: nothing was sent, and nothing is retried. *)
Theorem mutating_operations_require_login
    self w t assetid game money market_name price_single_item quantity currency
    market_id price fee sell_listing_id buy_order_id :
  was_login_executed self = false →
  let refused {A} : result A * trace :=
    (Raise (Exn NotLoggedIn []), t) in
  create_sell_order self assetid game money w t = refused
  ∧ create_buy_order self market_name price_single_item quantity game currency w t = refused
  ∧ buy_item self market_name market_id price fee game currency w t = refused
  ∧ cancel_sell_order self sell_listing_id w t = refused
  ∧ cancel_buy_order self buy_order_id w t = refused.
Proof.
  intros Hl refused. subst refused.
  unfold create_sell_order, create_buy_order, buy_item, cancel_sell_order, cancel_buy_order.
  repeat split; apply login_required_refuses; exact Hl.
Qed.

(** A new [SteamMarket] has not executed login. *)
Lemma init_not_logged_in session : was_login_executed (init session) = false.
Proof. reflexivity. Qed.

End Login.

Lemma mutating_operations_require_login_witness :
  was_login_executed Example.fresh = false
  ∧ buy_item (H := Example.imports) Example.fresh "AK-47 | Redline" "4242" 1000 130
      Example.csgo Example.usd (Example.always Example.purchased) []
    = (Raise (Exn NotLoggedIn []), []).
Proof.
  split; [reflexivity |].
  apply (mutating_operations_require_login (H := Example.imports) Example.fresh
           (Example.always Example.purchased) [] "1" Example.csgo "100"
           "AK-47 | Redline" "0.33" 3 Example.usd "4242" 1000 130 "77" (PStr "88")).
  reflexivity.
Defined.

(** ** Merging listing collections *)

Section Merging.

Lemma merge_sell_listings_dicts (d1 d2 s1 s2 : dict) :
  d1 !! "sell_listings" = Some (PDict s1) →
  d2 !! "sell_listings" = Some (PDict s2) →
  merge_sell_listings (PDict d1) (PDict d2)
  = Ok (PDict (<["sell_listings" := PDict (s2 ∪ s1)]> d1)).
Proof.
  intros H1 H2. unfold merge_sell_listings, py_getitem. rewrite H1, H2. reflexivity.
Qed.

(** C7, as the code has it.  The merge replaces the sell listings of the
    first collection by the overlay of the second's onto them: a key of
    the second collection takes the second's value, any other key keeps
    the first's.  Every other section of the first collection, its buy
    listings among them, is returned as it was, whatever the second
    collection holds there. *)
Theorem merge_sell_listings_overlay (d1 d2 s1 s2 : dict) :
  d1 !! "sell_listings" = Some (PDict s1) →
  d2 !! "sell_listings" = Some (PDict s2) →
  ∃ merged sells : dict,
    merge_sell_listings (PDict d1) (PDict d2) = Ok (PDict merged)
    ∧ merged !! "sell_listings" = Some (PDict sells)
    ∧ (∀ k v, s2 !! k = Some v → sells !! k = Some v)
    ∧ (∀ k, s2 !! k = None → sells !! k = s1 !! k)
    ∧ (∀ section, section ≠ "sell_listings" → merged !! section = d1 !! section).
Proof.
  intros H1 H2.
  exists (<["sell_listings" := PDict (s2 ∪ s1)]> d1), (s2 ∪ s1).
  split; [by apply merge_sell_listings_dicts |].
  split; [by rewrite lookup_insert_eq |].
  split; [intros k v Hk; by apply lookup_union_Some_l |].
  split; [intros k Hk; by apply lookup_union_r |].
  intros section Hne. by rewrite lookup_insert_ne.
Qed.

(** X14.  The result does not depend on the other sections of the second
    collection. *)
Lemma merge_sell_listings_ignores_rest (l1 : pyval) (d2 d2' : dict) :
  d2 !! "sell_listings" = d2' !! "sell_listings" →
  merge_sell_listings l1 (PDict d2) = merge_sell_listings l1 (PDict d2').
Proof.
  intros Heq. unfold merge_sell_listings. destruct (py_getitem l1 _); [| reflexivity].
  destruct (as_mapping _); [| reflexivity].
  unfold py_getitem. rewrite Heq. reflexivity.
Qed.

End Merging.

Lemma merge_sell_listings_overlay_witness :
  ∃ merged sells : dict,
    merge_sell_listings (PDict MergeExample.first) (PDict MergeExample.second) = Ok (PDict merged)
    ∧ merged !! "sell_listings" = Some (PDict sells)
    ∧ (∀ k v, ({[ "s2" := PInt 250; "s3" := PInt 300 ]} : dict) !! k = Some v → sells !! k = Some v)
    ∧ (∀ k, ({[ "s2" := PInt 250; "s3" := PInt 300 ]} : dict) !! k = None
            → sells !! k = ({[ "s1" := PInt 100; "s2" := PInt 200 ]} : dict) !! k)
    ∧ (∀ section, section ≠ "sell_listings" → merged !! section = MergeExample.first !! section).
Proof.
  apply (merge_sell_listings_overlay MergeExample.first MergeExample.second
           {[ "s1" := PInt 100; "s2" := PInt 200 ]} {[ "s2" := PInt 250; "s3" := PInt 300 ]});
    reflexivity.
Defined.

(** C7, as stated, fails on the buy listings: the second collection holds
    the buy listing [b2], the merge succeeds, and the merged collection's buy
    listings are the first collection's alone, without [b2]. *)
Lemma merge_discards_second_buy_listings :
  ∃ merged buys : dict,
    merge_sell_listings (PDict MergeExample.first) (PDict MergeExample.second) = Ok (PDict merged)
    ∧ MergeExample.second !! "buy_orders" = Some (PDict {[ "b2" := PInt 20 ]})
    ∧ merged !! "buy_orders" = Some (PDict buys)
    ∧ buys !! "b1" = Some (PInt 10)
    ∧ buys !! "b2" = None.
Proof.
  eexists _, _. repeat split; vm_compute; reflexivity.
Qed.

(** ** The total price of a buy order *)

Section Total.
Import PyDecimal.

Lemma ndigits_zero : ndigits 0 = 1.
Proof. reflexivity. Qed.

(** A coefficient that fits the precision, with an exponent in range, is
    left as it is by the rounding to the context. *)
Lemma fix_finite_exact s c e :
  ndigits c ≤ prec → Etiny ≤ e → ndigits c + e ≤ Emax + 1 →
  fix_finite s c e = Ok (DFinite s c e).
Proof.
  unfold fix_finite, Etop, Etiny, Emax, Emin, prec. intros Hp Hlo Hhi.
  destruct (N.eqb_spec c 0) as [-> | Hc].
  - rewrite ndigits_zero in Hhi. do 3 f_equal. lia.
  - destruct (Z.ltb_spec (999999 - 28 + 1) (ndigits c + e - 28)); [lia |].
    destruct (Z.ltb_spec (ndigits c + e - 28) (-999999 - 28 + 1)).
    + destruct (Z.ltb_spec e (-999999 - 28 + 1)); [lia | reflexivity].
    + destruct (Z.ltb_spec e (ndigits c + e - 28)); [lia | reflexivity].
Qed.

Lemma mul_of_int_exact s c e q :
  ndigits (c * Z.abs_N q) ≤ prec → Etiny ≤ e → ndigits (c * Z.abs_N q) + e ≤ Emax + 1 →
  mul (DFinite s c e) (of_int q) = Ok (DFinite (xorb s (q <? 0)) (c * Z.abs_N q) e).
Proof.
  intros Hp Hlo Hhi. unfold mul, of_int. rewrite Z.add_0_r.
  by apply fix_finite_exact.
Qed.

Lemma signed_coefficient_product (s : bool) (c : N) (q : Z) :
  (if xorb s (q <? 0) then - Z.of_N (c * Z.abs_N q) else Z.of_N (c * Z.abs_N q))
  = (if s then - Z.of_N c else Z.of_N c) * q.
Proof.
  rewrite N2Z.inj_mul, N2Z.inj_abs_N.
  destruct s, (Z.ltb_spec q 0); simpl;
    first [rewrite Z.abs_neq by lia | rewrite Z.abs_eq by lia]; ring.
Qed.

(** The value of the exact product decimal is the product of the values. *)
Lemma value_product s c e q :
  ∃ vp vt,
    value (DFinite s c e) = Some vp
    ∧ value (DFinite (xorb s (q <? 0)) (c * Z.abs_N q) e) = Some vt
    ∧ Qeq vt (vp * inject_Z q).
Proof.
  eexists _, _. split; [reflexivity |]. split; [reflexivity |].
  rewrite signed_coefficient_product, inject_Z_mult. ring.
Qed.

Context `{Imports}.

(** The trace of [create_buy_order] once the total is computed: one request,
    whatever its answer. *)
Lemma create_buy_order_sends self market_name price_single_item quantity game currency w
    price total :
  was_login_executed self = true →
  of_str price_single_item = Ok price →
  mul price (of_int quantity) = Ok total →
  snd (create_buy_order self market_name price_single_item quantity game currency w [])
  = [Post (COMMUNITY_URL ++ "/market/createbuyorder/")
          (create_buy_order_data self market_name total quantity game currency)
          (listings_referer game market_name)].
Proof.
  intros Hl Hp Hm. unfold create_buy_order. rewrite login_required_passes by done.
  rewrite (bind_lift_Ok _ _ _ _ _ Hp), (bind_lift_Ok _ _ _ _ _ Hm).
  unfold_monad. simpl.
  destruct (http w _) as [r | e0]; [| reflexivity].
  destruct (json r) as [v | e0]; [| reflexivity].
  destruct (py_get v "success") as [sc | e0]; [| reflexivity].
  destruct (negb (py_eq_int sc 1)); reflexivity.
Qed.

(** C9, as the code has it.  When the unit price is a finite decimal and
    its exact product with the quantity has at most 28 significant digits
    (the precision of the default context) and an exponent in range, the one
    request sent carries under [price_total] the text of a decimal whose
    value is exactly the unit price times the quantity. *)
Theorem create_buy_order_total_exact
    self market_name price_single_item quantity game currency w s c e :
  was_login_executed self = true →
  of_str price_single_item = Ok (DFinite s c e) →
  ndigits (c * Z.abs_N quantity) ≤ prec →
  Etiny ≤ e →
  ndigits (c * Z.abs_N quantity) + e ≤ Emax + 1 →
  let total := DFinite (xorb s (quantity <? 0)) (c * Z.abs_N quantity) e in
  let data := create_buy_order_data self market_name total quantity game currency in
  snd (create_buy_order self market_name price_single_item quantity game currency w [])
  = [Post (COMMUNITY_URL ++ "/market/createbuyorder/") data (listings_referer game market_name)]
  ∧ data !! "price_total" = Some (PStr (to_str total))
  ∧ ∃ vp vt,
      value (DFinite s c e) = Some vp ∧ value total = Some vt
      ∧ Qeq vt (vp * inject_Z quantity).
Proof.
  intros Hl Hp Hprec Hlo Hhi total data. split; [| split].
  - eapply create_buy_order_sends; [done | done |]. by apply mul_of_int_exact.
  - reflexivity.
  - apply value_product.
Qed.

End Total.

Lemma create_buy_order_total_exact_witness :
  snd (create_buy_order (H := Example.imports) Example.logged_in "AK-47 | Redline" "0.33" 3
         Example.csgo Example.usd (Example.always (PDict {[ "success" := PInt 1 ]})) [])
  = [Post "https://steamcommunity.com/market/createbuyorder/"
       (create_buy_order_data Example.logged_in "AK-47 | Redline"
          (PyDecimal.DFinite false 99 (-2)) 3 Example.csgo Example.usd)
       (listings_referer (H := Example.imports) Example.csgo "AK-47 | Redline")]
  ∧ PyDecimal.to_str (PyDecimal.DFinite false 99 (-2)) = "0.99".
Proof.
  split; [| reflexivity].
  apply (create_buy_order_total_exact (H := Example.imports) Example.logged_in "AK-47 | Redline"
           "0.33" 3 Example.csgo Example.usd (Example.always (PDict {[ "success" := PInt 1 ]}))
           false 33 (-2)); vm_compute; first [reflexivity | discriminate].
Defined.

(** The example of the specification: ["0.33"] times 3 is sent as ["0.99"]. *)
Example total_of_three_at_033 :
  ∃ price total,
    PyDecimal.of_str "0.33" = Ok price
    ∧ PyDecimal.mul price (PyDecimal.of_int 3) = Ok total
    ∧ PyDecimal.to_str total = "0.99".
Proof. eexists _, _. repeat split; vm_compute; reflexivity. Qed.

(** C9, as stated, fails past 28 significant digits.  The unit price
    1.0000000000000000000000000001 is a finite decimal and the quantity is
    3; the exact product 3.0000000000000000000000000003 has 29 digits, and
    the request carries ["3.000000000000000000000000000"], the product
    rounded to the precision of the context, whose value is not the product
    of the values. *)
Lemma create_buy_order_total_rounded :
  let price := PyDecimal.DFinite false 10000000000000000000000000001 (-28) in
  let total := PyDecimal.DFinite false 3000000000000000000000000000 (-27) in
  PyDecimal.of_str "1.0000000000000000000000000001" = Ok price
  ∧ snd (create_buy_order (H := Example.imports) Example.logged_in "AK-47 | Redline"
           "1.0000000000000000000000000001" 3 Example.csgo Example.usd
           (Example.always (PDict {[ "success" := PInt 1 ]})) [])
    = [Post "https://steamcommunity.com/market/createbuyorder/"
         (create_buy_order_data Example.logged_in "AK-47 | Redline" total 3 Example.csgo Example.usd)
         (listings_referer (H := Example.imports) Example.csgo "AK-47 | Redline")]
  ∧ PyDecimal.to_str total = "3.000000000000000000000000000"
  ∧ ∃ vp vt,
      PyDecimal.value price = Some vp ∧ PyDecimal.value total = Some vt
      ∧ ¬ Qeq vt (vp * inject_Z 3).
Proof.
  repeat split; try (vm_compute; reflexivity).
  eexists _, _. split; [reflexivity |]. split; [reflexivity |].
  vm_compute. discriminate.
Qed.

(** ** Buy orders: the success indicator *)

Section BuyOrders.
Context `{Imports}.

Lemma create_buy_order_run self market_name price_single_item quantity game currency w
    price total r d :
  was_login_executed self = true →
  PyDecimal.of_str price_single_item = Ok price →
  PyDecimal.mul price (PyDecimal.of_int quantity) = Ok total →
  http w [Post (COMMUNITY_URL ++ "/market/createbuyorder/")
            (create_buy_order_data self market_name total quantity game currency)
            (listings_referer game market_name)] = Ok r →
  json r = Ok (PDict d) →
  fst (create_buy_order self market_name price_single_item quantity game currency w [])
  = let success := default PNone (d !! "success") in
    if py_eq_int success 1 then Ok (PDict d) else Raise (problem_creating_order success).
Proof.
  intros Hl Hp Hm Hr Hj. unfold create_buy_order. rewrite login_required_passes by done.
  rewrite (bind_lift_Ok _ _ _ _ _ Hp), (bind_lift_Ok _ _ _ _ _ Hm).
  unfold_monad. simpl. rewrite Hr, Hj. simpl.
  destruct (d !! "success") as [sc |]; simpl; [destruct (py_eq_int sc 1) |]; reflexivity.
Qed.

Lemma cancel_buy_order_run self buy_order_id w r d :
  was_login_executed self = true →
  http w [Post (COMMUNITY_URL ++ "/market/cancelbuyorder/")
            (cancel_buy_order_data self buy_order_id) market_referer] = Ok r →
  json r = Ok (PDict d) →
  fst (cancel_buy_order self buy_order_id w [])
  = let success := default PNone (d !! "success") in
    if py_eq_int success 1 then Ok (PDict d) else Raise (problem_canceling_order success).
Proof.
  intros Hl Hr Hj. unfold cancel_buy_order. rewrite login_required_passes by done.
  unfold_monad. simpl. rewrite Hr, Hj. simpl.
  destruct (d !! "success") as [sc |]; simpl; [destruct (py_eq_int sc 1) |]; reflexivity.
Qed.

(** C3, as the code has it.  When the request is answered by a JSON
    object, [create_buy_order] returns that object if and only if its
    [success] field equals 1, and otherwise raises an [ApiException] whose
    message ends with the raw value of the field ([None] when it is absent);
    [cancel_buy_order] does the same.  The exception is of the one class
    [ApiException] that the other failures of this module raise. *)
Theorem buy_order_success_indicator
    self market_name price_single_item quantity game currency buy_order_id w
    price total r d r' d' :
  was_login_executed self = true →
  PyDecimal.of_str price_single_item = Ok price →
  PyDecimal.mul price (PyDecimal.of_int quantity) = Ok total →
  http w [Post (COMMUNITY_URL ++ "/market/createbuyorder/")
            (create_buy_order_data self market_name total quantity game currency)
            (listings_referer game market_name)] = Ok r →
  json r = Ok (PDict d) →
  http w [Post (COMMUNITY_URL ++ "/market/cancelbuyorder/")
            (cancel_buy_order_data self buy_order_id) market_referer] = Ok r' →
  json r' = Ok (PDict d') →
  let created := fst (create_buy_order self market_name price_single_item quantity game currency w []) in
  let cancelled := fst (cancel_buy_order self buy_order_id w []) in
  let success := default PNone (d !! "success") in
  let success' := default PNone (d' !! "success") in
  (created = Ok (PDict d) ↔ py_eq_int success 1 = true)
  ∧ (py_eq_int success 1 = false →
     created = Raise (Exn ApiException
       [FLit "There was a problem creating the order. Are you using the right currency? success: ";
        FVal success]))
  ∧ (cancelled = Ok (PDict d') ↔ py_eq_int success' 1 = true)
  ∧ (py_eq_int success' 1 = false →
     cancelled = Raise (Exn ApiException
       [FLit "There was a problem canceling the order. success: "; FVal success'])).
Proof.
  intros Hl Hp Hm Hr Hj Hr' Hj' created cancelled success success'.
  subst created cancelled.
  rewrite (create_buy_order_run _ _ _ _ _ _ _ _ _ _ _ Hl Hp Hm Hr Hj).
  rewrite (cancel_buy_order_run _ _ _ _ _ Hl Hr' Hj').
  cbv zeta. fold success success'.
  destruct (py_eq_int success 1), (py_eq_int success' 1);
    repeat split; intros; try reflexivity; try discriminate.
Qed.

End BuyOrders.

Lemma buy_order_success_indicator_witness :
  fst (create_buy_order (H := Example.imports) Example.logged_in "AK-47 | Redline" "0.33" 3
         Example.csgo Example.usd (Example.always (PDict {[ "success" := PInt 8 ]})) [])
  = Raise (Exn ApiException
      [FLit "There was a problem creating the order. Are you using the right currency? success: ";
       FVal (PInt 8)]).
Proof.
  refine (proj1 (proj2
    (buy_order_success_indicator (H := Example.imports) Example.logged_in "AK-47 | Redline"
       "0.33" 3 Example.csgo Example.usd (PStr "5021")
       (Example.always (PDict {[ "success" := PInt 8 ]}))
       (PyDecimal.DFinite false 33 (-2)) (PyDecimal.DFinite false 99 (-2))
       (Example.json_response (PDict {[ "success" := PInt 8 ]})) {[ "success" := PInt 8 ]}
       (Example.json_response (PDict {[ "success" := PInt 8 ]})) {[ "success" := PInt 8 ]}
       _ _ _ _ _ _ _)) _); reflexivity.
Defined.

(** C3, as stated, fails on the class of the error.  A buy order that the
    marketplace declines with [success = 8] raises an exception of class
    [ApiException], and so does [cancel_sell_order] on a status that is not
    OK, which is the failure the specification names [ApiError]: the two are
    not distinct errors. *)
Lemma order_rejection_is_ApiException :
  ∃ rejected api_error,
    fst (create_buy_order (H := Example.imports) Example.logged_in "AK-47 | Redline" "0.33" 3
           Example.csgo Example.usd (Example.always (PDict {[ "success" := PInt 8 ]})) [])
    = Raise rejected
    ∧ fst (cancel_sell_order (H := Example.imports) Example.logged_in "4242"
             (Example.status_only 500) [])
      = Raise api_error
    ∧ exn_cls rejected = ApiException
    ∧ exn_cls api_error = ApiException
    ∧ ¬ (exn_cls rejected ≠ exn_cls api_error).
Proof.
  eexists _, _. split; [vm_compute; reflexivity |]. split; [vm_compute; reflexivity |].
  split; [reflexivity |]. split; [reflexivity |]. intros Hne. by apply Hne.
Qed.

(** ** Sell orders: when the confirmation service is asked *)

Section SellOrders.
Context `{Imports}.

(** The decision rule on a submit response whose [message] is absent or a
    string.  If [needs_mobile_confirmation] is truthy, or [success] is falsy
    and the message contains ["pending confirmation"], the confirmation
    service is asked to confirm the sell listing of the submitted asset, no
    other confirmation is touched, and its answer is the outcome of the
    call; otherwise the submit response is returned as it is and the
    confirmation service is not contacted. *)
Theorem create_sell_order_delegation
    self assetid game money_to_receive w g steamid identity_secret r d :
  was_login_executed self = true →
  _steam_guard self = Some g →
  g !! "steamid" = Some steamid →
  g !! "identity_secret" = Some identity_secret →
  let submit := Post (COMMUNITY_URL ++ "/market/sellitem/")
                  (create_sell_order_data self assetid game money_to_receive)
                  (inventory_referer steamid) in
  let confirm := ConfirmSellListing identity_secret steamid assetid in
  http w [submit] = Ok r →
  json r = Ok (PDict d) →
  (d !! "message" = None ∨ ∃ s, d !! "message" = Some (PStr s)) →
  let needs_mobile_confirmation := truthy (default PNone (d !! "needs_mobile_confirmation")) in
  let success := truthy (default PNone (d !! "success")) in
  let has_pending_confirmation :=
    match d !! "message" with
    | Some (PStr s) => contains "pending confirmation" s
    | _ => false
    end in
  create_sell_order self assetid game money_to_receive w []
  = if (needs_mobile_confirmation || (negb success && has_pending_confirmation))%bool
    then (confirm_sell_listing w [submit; confirm], [submit; confirm])
    else (Ok (PDict d), [submit]).
Proof.
  intros Hl Hg Hs Hi submit confirm Hr Hj Hmsg needs success pending.
  subst submit confirm needs success pending.
  unfold create_sell_order. rewrite login_required_passes by done.
  assert (Hsid : steam_guard_getitem self "steamid" = Ok steamid)
    by (unfold steam_guard_getitem; by rewrite Hg, Hs).
  assert (Hids : steam_guard_getitem self "identity_secret" = Ok identity_secret)
    by (unfold steam_guard_getitem; by rewrite Hg, Hi).
  rewrite (bind_lift_Ok _ _ _ _ _ Hsid).
  unfold _confirm_sell_listing. unfold_monad. simpl. rewrite Hr, Hj, Hids, Hsid. simpl.
  destruct Hmsg as [Hm | [s Hm]]; rewrite Hm; simpl;
    (destruct (d !! "needs_mobile_confirmation") as [nm |]; simpl;
     [destruct (truthy nm); simpl; [reflexivity |] |]);
    (destruct (d !! "success") as [sc |]; simpl; [destruct (truthy sc) |]; simpl);
    rewrite ?andb_false_r; try reflexivity;
    destruct (contains _ s); reflexivity.
Qed.

End SellOrders.

Lemma create_sell_order_delegation_witness :
  create_sell_order (H := Example.imports) Example.logged_in "27181999314" Example.csgo "1500"
    (Example.always Example.pending_sale) []
  = (Ok (PDict {[ "success" := PBool true ]}),
     [Post "https://steamcommunity.com/market/sellitem/"
        (create_sell_order_data Example.logged_in "27181999314" Example.csgo "1500")
        (inventory_referer (H := Example.imports) "76561198000000000");
      ConfirmSellListing "aWRlbnRpdHk=" "76561198000000000" "27181999314"]).
Proof.
  etrans.
  - apply (create_sell_order_delegation (H := Example.imports) Example.logged_in "27181999314"
             Example.csgo "1500" (Example.always Example.pending_sale) Example.guard
             "76561198000000000" "aWRlbnRpdHk=" (Example.json_response Example.pending_sale)
             {[ "success" := PBool false;
                "message" := PStr "There is a pending confirmation for this item" ]});
      first [reflexivity | right; eexists; reflexivity].
  - vm_compute. reflexivity.
Defined.

(** A submit response that is neither pending nor flagged is returned as it
    is, whether it reports success or failure. *)
Example create_sell_order_returns_failure :
  create_sell_order (H := Example.imports) Example.logged_in "27181999314" Example.csgo "1500"
    (Example.always (PDict {[ "success" := PBool false; "message" := PStr "Price too high" ]})) []
  = (Ok (PDict {[ "success" := PBool false; "message" := PStr "Price too high" ]}),
     [Post "https://steamcommunity.com/market/sellitem/"
        (create_sell_order_data Example.logged_in "27181999314" Example.csgo "1500")
        (inventory_referer (H := Example.imports) "76561198000000000")]).
Proof. vm_compute. reflexivity. Qed.

(** The membership test on the message is evaluated before the flags are
    looked at: when it raises, the call ends with its error after the
    submission, whatever the flags say. *)
Lemma create_sell_order_message_test_raises `{Imports}
    self assetid game money_to_receive w (g : gmap string string) steamid r (d : dict) v e :
  was_login_executed self = true →
  _steam_guard self = Some g →
  g !! "steamid" = Some steamid →
  let submit := Post (COMMUNITY_URL ++ "/market/sellitem/")
                  (create_sell_order_data self assetid game money_to_receive)
                  (inventory_referer steamid) in
  http w [submit] = Ok r →
  json r = Ok (PDict d) →
  d !! "message" = Some v →
  py_contains "pending confirmation" v = Raise e →
  create_sell_order self assetid game money_to_receive w [] = (Raise e, [submit]).
Proof.
  intros Hl Hg Hs submit Hr Hj Hm Hc. subst submit.
  unfold create_sell_order. rewrite login_required_passes by done.
  assert (Hsid : steam_guard_getitem self "steamid" = Ok steamid)
    by (unfold steam_guard_getitem; by rewrite Hg, Hs).
  rewrite (bind_lift_Ok _ _ _ _ _ Hsid). cbv zeta.
  rewrite (bind_run _ _ _ _ _ _ (session_post_json_run _ _ _ w [] r _ Hr Hj)).
  assert (Hget : py_get_default (PDict d) "message" (PStr "") = Ok v)
    by (unfold py_get_default; by rewrite Hm).
  rewrite (bind_lift_Ok _ _ _ _ _ Hget). by rewrite (bind_lift_Raise _ _ _ _ _ Hc).
Qed.

(** C6: the code at a null message.  The submit response has a truthy
    [needs_mobile_confirmation] and a null [message].  The sell order is
    submitted, and the call ends with the [TypeError] of the membership test
    on the message, which is made before the flag is read: the confirmation
    service is not asked to confirm the sell listing. *)
Theorem create_sell_order_null_message_raises :
  Example.flagged_null_message !! "needs_mobile_confirmation" = Some (PBool true)
  ∧ Example.flagged_null_message !! "message" = Some PNone
  ∧ create_sell_order (H := Example.imports) Example.logged_in "27181999314" Example.csgo "1500"
      (Example.always (PDict Example.flagged_null_message)) []
    = (Raise (Exn TypeError
                [FLit "argument of type '"; FLit "NoneType"; FLit "' is not iterable"]),
       [Post "https://steamcommunity.com/market/sellitem/"
          (create_sell_order_data Example.logged_in "27181999314" Example.csgo "1500")
          (inventory_referer (H := Example.imports) "76561198000000000")]).
Proof. repeat split; vm_compute; reflexivity. Qed.

(** ** [buy_item] *)

Section BuyItem.
Context `{Imports}.

Lemma for_each_send_confirmation w identity_secret steamid confirmations t :
  (∀ k, (k < List.length confirmations)%nat →
        ∃ ack, send_confirmation w
                 (t ++ (SendConfirmation identity_secret steamid <$> take (S k) confirmations))%list
               = Ok ack) →
  for_each confirmations
    (λ confirmation,
       perform (SendConfirmation identity_secret steamid confirmation) send_confirmation;;
       mret tt) w t
  = (Ok tt, (t ++ (SendConfirmation identity_secret steamid <$> confirmations))%list).
Proof.
  revert t. induction confirmations as [| c cs IH]; intros t Hacks.
  - simpl. rewrite app_nil_r. reflexivity.
  - simpl. destruct (Hacks 0%nat) as [ack Hack]; [simpl; lia |]. simpl in Hack.
    unfold_monad. simpl. rewrite Hack.
    change (for_each cs _ w (t ++ [SendConfirmation identity_secret steamid c])%list)
      with (for_each cs
              (λ confirmation,
                 perform (SendConfirmation identity_secret steamid confirmation) send_confirmation;;
                 mret tt) w (t ++ [SendConfirmation identity_secret steamid c])%list).
    rewrite IH.
    + rewrite <- app_assoc. reflexivity.
    + intros k Hk. destruct (Hacks (S k)) as [ack' Hack']; [simpl; lia |].
      exists ack'. rewrite <- Hack', <- app_assoc. reflexivity.
Qed.

Lemma confirm_buy_listing_run self w t g identity_secret steamid confirmations :
  _steam_guard self = Some g →
  g !! "identity_secret" = Some identity_secret →
  g !! "steamid" = Some steamid →
  get_confirmations w (t ++ [GetConfirmations identity_secret steamid])%list = Ok confirmations →
  (∀ k, (k < List.length confirmations)%nat →
        ∃ ack, send_confirmation w
                 ((t ++ [GetConfirmations identity_secret steamid])
                    ++ (SendConfirmation identity_secret steamid <$> take (S k) confirmations))%list
               = Ok ack) →
  _confirm_buy_listing self w t
  = (Ok (PDict {[ "success" := PBool true;
                  "message" := PStr "All pending confirmations have been accepted." ]}),
     ((t ++ [GetConfirmations identity_secret steamid])
        ++ (SendConfirmation identity_secret steamid <$> confirmations))%list).
Proof.
  intros Hg Hi Hs Hc Hacks. unfold _confirm_buy_listing.
  assert (Hsid : steam_guard_getitem self "steamid" = Ok steamid)
    by (unfold steam_guard_getitem; by rewrite Hg, Hs).
  assert (Hids : steam_guard_getitem self "identity_secret" = Ok identity_secret)
    by (unfold steam_guard_getitem; by rewrite Hg, Hi).
  rewrite (bind_lift_Ok _ _ _ _ _ Hids), (bind_lift_Ok _ _ _ _ _ Hsid).
  rewrite bind_perform, Hc. rewrite bind_unfold.
  rewrite (for_each_send_confirmation _ _ _ _ _ Hacks). reflexivity.
Qed.

End BuyItem.

Section BuyItemFlow.
Context `{Imports}.

Lemma confirmation_required_true (d c : dict) success cid :
  d !! "success" = Some success →
  py_eq_int success 22 = true →
  d !! "confirmation" = Some (PDict c) →
  c !! "confirmation_id" = Some cid →
  truthy cid = true →
  confirmation_required (PDict d) = Ok true.
Proof.
  intros Hs H22 Hc Hcid Ht. unfold confirmation_required, py_get, py_get_default.
  rewrite Hs, H22, Hc, Hcid, Ht. reflexivity.
Qed.

(** The whole run of a purchase that needs a confirmation, when the
    confirmation service and the second request answer. *)
Lemma buy_item_confirmation_run
    self market_name market_id price fee game currency w
    sessionid r1 (d : dict) success (c : dict) cid
    (g : gmap string string) identity_secret steamid confirmations r2 final :
  let url := buylisting_url market_id in
  let headers := listings_referer game market_name in
  let data := buy_item_data sessionid price fee currency in
  let submitted := [Post url data headers; GetConfirmations identity_secret steamid] in
  let accepted :=
    (submitted ++ (SendConfirmation identity_secret steamid <$> confirmations))%list in
  let resubmitted :=
    (accepted ++ [Sleep 1; Post url (<["confirmation" := cid]> data) headers])%list in
  was_login_executed self = true →
  get_dict (_session self) "steamcommunity.com" !! "sessionid" = Some sessionid →
  http w [Post url data headers] = Ok r1 →
  json r1 = Ok (PDict d) →
  wallet_success (PDict d) = Ok false →
  d !! "success" = Some success →
  py_eq_int success 22 = true →
  d !! "confirmation" = Some (PDict c) →
  c !! "confirmation_id" = Some cid →
  truthy cid = true →
  _steam_guard self = Some g →
  g !! "identity_secret" = Some identity_secret →
  g !! "steamid" = Some steamid →
  get_confirmations w submitted = Ok confirmations →
  (∀ k, (k < List.length confirmations)%nat →
        ∃ ack, send_confirmation w
                 (submitted ++ (SendConfirmation identity_secret steamid
                                  <$> take (S k) confirmations))%list = Ok ack) →
  http w resubmitted = Ok r2 →
  json r2 = Ok final →
  buy_item self market_name market_id price fee game currency w [] = (Ok final, resubmitted).
Proof.
  intros url headers data submitted accepted resubmitted
    Hl Hsid Hr1 Hj1 Hw Hs H22 Hc Hcid Ht Hg Hi Hst Hconfs Hacks Hr2 Hj2.
  unfold buy_item. rewrite login_required_passes by done.
  assert (Hcookie :
    dict_getitem (get_dict (_session self) "steamcommunity.com") "sessionid" = Ok sessionid)
    by (unfold dict_getitem, py_getitem; by rewrite Hsid).
  rewrite (bind_lift_Ok _ _ _ _ _ Hcookie).
  fold url headers data.
  rewrite (bind_run _ _ _ _ _ _ (session_post_json_run url data headers w [] r1 _ Hr1 Hj1)).
  rewrite (bind_lift_Ok _ _ _ _ _ Hw).
  rewrite (bind_lift_Ok _ _ _ _ _
             (confirmation_required_true _ _ _ _ Hs H22 Hc Hcid Ht)).
  unfold try_except.
  assert (E1 : py_getitem (PDict d) "confirmation" = Ok (PDict c))
    by (unfold py_getitem; by rewrite Hc).
  assert (E2 : py_getitem (PDict c) "confirmation_id" = Ok cid)
    by (unfold py_getitem; by rewrite Hcid).
  rewrite (bind_lift_Ok _ _ _ _ _ E1), (bind_lift_Ok _ _ _ _ _ E2).
  rewrite (bind_run _ _ _ _ _ _
             (confirm_buy_listing_run self w [Post url data headers] g identity_secret steamid
                confirmations Hg Hi Hst Hconfs Hacks)).
  fold submitted. fold accepted.
  rewrite (bind_run _ _ _ _ _ _ (sleep_run 1 w accepted)).
  assert (Hr2' : http w ((accepted ++ [Sleep 1])
                           ++ [Post url (<["confirmation" := cid]> data) headers])%list = Ok r2)
    by (rewrite <- app_assoc; exact Hr2).
  rewrite (bind_run _ _ _ _ _ _
             (session_post_json_run url _ headers w (accepted ++ [Sleep 1])%list r2 _ Hr2' Hj2)).
  subst resubmitted. rewrite <- app_assoc. reflexivity.
Qed.

(** The first request of [buy_item] and its answer. *)
Lemma buy_item_first_response
    self market_name market_id price fee game currency w sessionid r1 (d : dict) :
  let url := buylisting_url market_id in
  let headers := listings_referer game market_name in
  let data := buy_item_data sessionid price fee currency in
  was_login_executed self = true →
  get_dict (_session self) "steamcommunity.com" !! "sessionid" = Some sessionid →
  http w [Post url data headers] = Ok r1 →
  json r1 = Ok (PDict d) →
  buy_item self market_name market_id price fee game currency w []
  = (paid ← lift (wallet_success (PDict d));
     if paid : bool then mret (PDict d)
     else
       pending ← lift (confirmation_required (PDict d));
       if pending : bool then
         try_except (
           confirmation ← lift (py_getitem (PDict d) "confirmation");
           confirmation_id ← lift (py_getitem confirmation "confirmation_id");
           let data := <["confirmation" := confirmation_id]> data in
           _confirm_buy_listing self;;
           sleep 1;;
           final_response ← session_post_json url data headers;
           mret final_response
         ) confirmation_handlers
       else
         message ← lift (failure_message (PDict d));
         raise (failed_to_buy message)) w [Post url data headers].
Proof.
  intros url headers data Hl Hsid Hr1 Hj1.
  unfold buy_item. rewrite login_required_passes by done.
  assert (Hcookie :
    dict_getitem (get_dict (_session self) "steamcommunity.com") "sessionid" = Ok sessionid)
    by (unfold dict_getitem, py_getitem; by rewrite Hsid).
  rewrite (bind_lift_Ok _ _ _ _ _ Hcookie).
  fold url headers data.
  by rewrite (bind_run _ _ _ _ _ _ (session_post_json_run url data headers w [] r1 _ Hr1 Hj1)).
Qed.

(** X25.  A response that satisfies the wallet-success condition is returned at
    once: nothing follows the submission. *)
Lemma buy_item_wallet_success
    self market_name market_id price fee game currency w sessionid r1 (d : dict) :
  let url := buylisting_url market_id in
  let headers := listings_referer game market_name in
  let data := buy_item_data sessionid price fee currency in
  was_login_executed self = true →
  get_dict (_session self) "steamcommunity.com" !! "sessionid" = Some sessionid →
  http w [Post url data headers] = Ok r1 →
  json r1 = Ok (PDict d) →
  wallet_success (PDict d) = Ok true →
  buy_item self market_name market_id price fee game currency w []
  = (Ok (PDict d), [Post url data headers]).
Proof.
  intros url headers data Hl Hsid Hr1 Hj1 Hw.
  rewrite (buy_item_first_response _ _ _ _ _ _ _ _ _ _ _ Hl Hsid Hr1 Hj1).
  by rewrite (bind_lift_Ok _ _ _ _ _ Hw).
Qed.

(** A [confirmation] field that is not an object makes the test of the
    confirmation condition raise [AttributeError]. *)
Lemma confirmation_required_mistyped (d : dict) success v :
  d !! "success" = Some success →
  py_eq_int success 22 = true →
  d !! "confirmation" = Some v →
  (∀ c, v ≠ PDict c) →
  confirmation_required (PDict d) = Raise (no_attribute v "get").
Proof.
  intros Hs H22 Hc Hv. unfold confirmation_required, py_get, py_get_default.
  rewrite Hs, H22, Hc. destruct v; try reflexivity. by destruct (Hv d0).
Qed.

(** That error is raised before the [try] of the confirmation step is
    entered, and leaves [buy_item] as it is. *)
Lemma buy_item_condition_raises
    self market_name market_id price fee game currency w sessionid r1 (d : dict) e :
  let url := buylisting_url market_id in
  let headers := listings_referer game market_name in
  let data := buy_item_data sessionid price fee currency in
  was_login_executed self = true →
  get_dict (_session self) "steamcommunity.com" !! "sessionid" = Some sessionid →
  http w [Post url data headers] = Ok r1 →
  json r1 = Ok (PDict d) →
  wallet_success (PDict d) = Ok false →
  confirmation_required (PDict d) = Raise e →
  buy_item self market_name market_id price fee game currency w []
  = (Raise e, [Post url data headers]).
Proof.
  intros url headers data Hl Hsid Hr1 Hj1 Hw Hc.
  rewrite (buy_item_first_response _ _ _ _ _ _ _ _ _ _ _ Hl Hsid Hr1 Hj1).
  rewrite (bind_lift_Ok _ _ _ _ _ Hw). by rewrite (bind_lift_Raise _ _ _ _ _ Hc).
Qed.

(** X27.  Inside the confirmation step, a failure of the confirmation service is
    reported by the class of what it raised: [KeyError] and [TypeError] as
    invalid confirmation data, any other [Exception] wrapped as an error of
    the second step; what is not an [Exception] propagates. *)
Lemma buy_item_confirmation_service_fails
    self market_name market_id price fee game currency w
    sessionid r1 (d : dict) success (c : dict) cid
    (g : gmap string string) identity_secret steamid e :
  let url := buylisting_url market_id in
  let headers := listings_referer game market_name in
  let data := buy_item_data sessionid price fee currency in
  let submitted := [Post url data headers; GetConfirmations identity_secret steamid] in
  was_login_executed self = true →
  get_dict (_session self) "steamcommunity.com" !! "sessionid" = Some sessionid →
  http w [Post url data headers] = Ok r1 →
  json r1 = Ok (PDict d) →
  wallet_success (PDict d) = Ok false →
  d !! "success" = Some success →
  py_eq_int success 22 = true →
  d !! "confirmation" = Some (PDict c) →
  c !! "confirmation_id" = Some cid →
  truthy cid = true →
  _steam_guard self = Some g →
  g !! "identity_secret" = Some identity_secret →
  g !! "steamid" = Some steamid →
  get_confirmations w submitted = Raise e →
  buy_item self market_name market_id price fee game currency w []
  = (Raise match exn_cls e with
           | KeyError | TypeError => invalid_confirmation_data
           | _ => if is_Exception e then second_step_error e else e
           end,
     submitted).
Proof.
  intros url headers data submitted
    Hl Hsid Hr1 Hj1 Hw Hs H22 Hc Hcid Ht Hg Hi Hst Hconfs.
  rewrite (buy_item_first_response _ _ _ _ _ _ _ _ _ _ _ Hl Hsid Hr1 Hj1).
  rewrite (bind_lift_Ok _ _ _ _ _ Hw).
  rewrite (bind_lift_Ok _ _ _ _ _
             (confirmation_required_true _ _ _ _ Hs H22 Hc Hcid Ht)).
  unfold try_except.
  assert (E1 : py_getitem (PDict d) "confirmation" = Ok (PDict c))
    by (unfold py_getitem; by rewrite Hc).
  assert (E2 : py_getitem (PDict c) "confirmation_id" = Ok cid)
    by (unfold py_getitem; by rewrite Hcid).
  rewrite (bind_lift_Ok _ _ _ _ _ E1), (bind_lift_Ok _ _ _ _ _ E2).
  assert (Hsid' : steam_guard_getitem self "steamid" = Ok steamid)
    by (unfold steam_guard_getitem; by rewrite Hg, Hst).
  assert (Hids : steam_guard_getitem self "identity_secret" = Ok identity_secret)
    by (unfold steam_guard_getitem; by rewrite Hg, Hi).
  assert (Hrun : _confirm_buy_listing self w [Post url data headers] = (Raise e, submitted)).
  { unfold _confirm_buy_listing.
    rewrite (bind_lift_Ok _ _ _ _ _ Hids), (bind_lift_Ok _ _ _ _ _ Hsid').
    rewrite bind_perform. cbn [app]. fold submitted. by rewrite Hconfs. }
  cbv zeta. rewrite (bind_run_Raise _ _ _ _ _ _ Hrun). unfold confirmation_handlers.
  destruct e as [cls msg]. destruct cls; reflexivity.
Qed.

End BuyItemFlow.

Section BuyItemClaims.
Context `{Imports}.

(** The confirmation flow.  The wallet-success test evaluates to false on
    the first response, its top-level [success] equals 22 and it holds a
    truthy confirmation id; the confirmation service and the second request
    answer.  Then the run is, in this order: the submission, the
    fetch of all outstanding confirmations, one acceptance for each of them,
    a sleep of one second, and the resubmission to the same URL of the same
    payload with [confirmation] set to the confirmation id.  The answer to
    the resubmission is returned as it is, whatever it holds. *)
Theorem buy_item_confirms_then_resubmits
    self market_name market_id price fee game currency w
    sessionid r1 (d : dict) success (c : dict) cid
    (g : gmap string string) identity_secret steamid confirmations r2 final :
  let url := buylisting_url market_id in
  let headers := listings_referer game market_name in
  let data := buy_item_data sessionid price fee currency in
  let submitted := [Post url data headers; GetConfirmations identity_secret steamid] in
  let accepted :=
    (submitted ++ (SendConfirmation identity_secret steamid <$> confirmations))%list in
  let resubmitted :=
    (accepted ++ [Sleep 1; Post url (<["confirmation" := cid]> data) headers])%list in
  was_login_executed self = true →
  get_dict (_session self) "steamcommunity.com" !! "sessionid" = Some sessionid →
  http w [Post url data headers] = Ok r1 →
  json r1 = Ok (PDict d) →
  wallet_success (PDict d) = Ok false →
  d !! "success" = Some success →
  py_eq_int success 22 = true →
  d !! "confirmation" = Some (PDict c) →
  c !! "confirmation_id" = Some cid →
  truthy cid = true →
  _steam_guard self = Some g →
  g !! "identity_secret" = Some identity_secret →
  g !! "steamid" = Some steamid →
  get_confirmations w submitted = Ok confirmations →
  (∀ k, (k < List.length confirmations)%nat →
        ∃ ack, send_confirmation w
                 (submitted ++ (SendConfirmation identity_secret steamid
                                  <$> take (S k) confirmations))%list = Ok ack) →
  http w resubmitted = Ok r2 →
  json r2 = Ok final →
  buy_item self market_name market_id price fee game currency w [] = (Ok final, resubmitted)
  ∧ (<["confirmation" := cid]> data) !! "confirmation" = Some cid.
Proof.
  intros. split; [by eapply buy_item_confirmation_run | by rewrite lookup_insert_eq].
Qed.

(** C10.  In the confirmation path the two requests go to the same URL with
    the same headers, and the payload of the second is the payload of the
    first with [confirmation] changed from ['0'] to the confirmation id of
    the first response: every other field is the same. *)
Theorem buy_item_resubmission_frame
    self market_name market_id price fee game currency w
    sessionid r1 (d : dict) success (c : dict) cid
    (g : gmap string string) identity_secret steamid confirmations r2 final :
  let url := buylisting_url market_id in
  let headers := listings_referer game market_name in
  let data := buy_item_data sessionid price fee currency in
  let data' : dict := <["confirmation" := cid]> data in
  let submitted := [Post url data headers; GetConfirmations identity_secret steamid] in
  let accepted :=
    (submitted ++ (SendConfirmation identity_secret steamid <$> confirmations))%list in
  let resubmitted := (accepted ++ [Sleep 1; Post url data' headers])%list in
  was_login_executed self = true →
  get_dict (_session self) "steamcommunity.com" !! "sessionid" = Some sessionid →
  http w [Post url data headers] = Ok r1 →
  json r1 = Ok (PDict d) →
  wallet_success (PDict d) = Ok false →
  d !! "success" = Some success →
  py_eq_int success 22 = true →
  d !! "confirmation" = Some (PDict c) →
  c !! "confirmation_id" = Some cid →
  truthy cid = true →
  _steam_guard self = Some g →
  g !! "identity_secret" = Some identity_secret →
  g !! "steamid" = Some steamid →
  get_confirmations w submitted = Ok confirmations →
  (∀ k, (k < List.length confirmations)%nat →
        ∃ ack, send_confirmation w
                 (submitted ++ (SendConfirmation identity_secret steamid
                                  <$> take (S k) confirmations))%list = Ok ack) →
  http w resubmitted = Ok r2 →
  json r2 = Ok final →
  snd (buy_item self market_name market_id price fee game currency w [])
  = ([Post url data headers; GetConfirmations identity_secret steamid]
       ++ (SendConfirmation identity_secret steamid <$> confirmations)
       ++ [Sleep 1; Post url data' headers])%list
  ∧ data !! "confirmation" = Some (PStr "0")
  ∧ data' !! "confirmation" = Some cid
  ∧ (∀ k, k ≠ "confirmation" → data' !! k = data !! k)
  ∧ data' !! "sessionid" = Some sessionid
  ∧ data' !! "currency" = Some (PInt (currency_value currency))
  ∧ data' !! "subtotal" = Some (PInt (price - fee))
  ∧ data' !! "fee" = Some (PInt fee)
  ∧ data' !! "total" = Some (PInt price)
  ∧ data' !! "quantity" = Some (PStr "1")
  ∧ data' !! "billing_state" = Some (PStr "")
  ∧ data' !! "save_my_address" = Some (PStr "0").
Proof.
  intros url headers data data' submitted accepted resubmitted
    Hl Hsid Hr1 Hj1 Hw Hs H22 Hc Hcid Ht Hg Hi Hst Hconfs Hacks Hr2 Hj2.
  split.
  - rewrite (buy_item_confirmation_run self market_name market_id price fee game currency w
               sessionid r1 d success c cid g identity_secret steamid confirmations r2 final
               Hl Hsid Hr1 Hj1 Hw Hs H22 Hc Hcid Ht Hg Hi Hst Hconfs Hacks Hr2 Hj2).
    cbn [snd]. rewrite <- app_assoc. reflexivity.
  - split; [reflexivity |].
    split; [subst data'; by rewrite lookup_insert_eq |].
    split; [intros k Hk; subst data'; by rewrite lookup_insert_ne |].
    repeat split; reflexivity.
Qed.

(** The message of the final failure, for a response object on which the
    wallet-success condition evaluates to false. *)
Lemma failure_message_dict (d : dict) :
  wallet_success (PDict d) = Ok false →
  failure_message (PDict d)
  = Ok (let top := default PNone (d !! "message") in
        if truthy top then top
        else match d !! "wallet_info" with
             | Some (PDict wallet_info) =>
                 if truthy (PDict wallet_info) then default PNone (wallet_info !! "message")
                 else top
             | _ => top
             end).
Proof.
  unfold wallet_success, failure_message, py_get, py_get_default, py_getitem.
  intros Hw. cbv zeta.
  destruct (d !! "message") as [m |]; destruct (d !! "wallet_info") as [wi |];
    simpl in *; try destruct (truthy m); try reflexivity.
  all: destruct wi; simpl in *; try discriminate; try reflexivity.
  all: try (destruct (Nat.eqb (size d0) 0); simpl; try reflexivity).
  all: try (destruct (d0 !! "message"); reflexivity).
  all: try (destruct l; simpl in *; try discriminate; reflexivity).
  all: try (destruct b; simpl in *; try discriminate; reflexivity).
  all: try (destruct (z =? 0); simpl in *; try discriminate; reflexivity).
  all: try (destruct f; simpl in *; try discriminate; reflexivity).
  all: try (destruct s; simpl in *; try discriminate; reflexivity).
Qed.

(** C5, as the code has it.  When the wallet-success test and the
    confirmation test both evaluate to false on the first response (shapes
    on which a test raises are left out), the call raises an
    [ApiException] whose message ends with: the top-level [message] if it
    is truthy; otherwise, if [wallet_info] is a non-empty object, the
    [message] of [wallet_info] ([None] if it has none); otherwise the
    top-level [message] as it is ([None] if absent).  Nothing is sent after
    the first request. *)
Theorem buy_item_failure_message
    self market_name market_id price fee game currency w sessionid r1 (d : dict) :
  let url := buylisting_url market_id in
  let headers := listings_referer game market_name in
  let data := buy_item_data sessionid price fee currency in
  was_login_executed self = true →
  get_dict (_session self) "steamcommunity.com" !! "sessionid" = Some sessionid →
  http w [Post url data headers] = Ok r1 →
  json r1 = Ok (PDict d) →
  wallet_success (PDict d) = Ok false →
  confirmation_required (PDict d) = Ok false →
  let top := default PNone (d !! "message") in
  let message :=
    if truthy top then top
    else match d !! "wallet_info" with
         | Some (PDict wallet_info) =>
             if truthy (PDict wallet_info) then default PNone (wallet_info !! "message")
             else top
         | _ => top
         end in
  buy_item self market_name market_id price fee game currency w []
  = (Raise (Exn ApiException [FLit "Failed to buy item. Steam message: "; FVal message]),
     [Post url data headers]).
Proof.
  intros url headers data Hl Hsid Hr1 Hj1 Hw Hc top message.
  unfold buy_item. rewrite login_required_passes by done.
  assert (Hcookie :
    dict_getitem (get_dict (_session self) "steamcommunity.com") "sessionid" = Ok sessionid)
    by (unfold dict_getitem, py_getitem; by rewrite Hsid).
  rewrite (bind_lift_Ok _ _ _ _ _ Hcookie).
  fold url headers data.
  rewrite (bind_run _ _ _ _ _ _ (session_post_json_run url data headers w [] r1 _ Hr1 Hj1)).
  rewrite (bind_lift_Ok _ _ _ _ _ Hw), (bind_lift_Ok _ _ _ _ _ Hc).
  rewrite (bind_lift_Ok _ _ _ _ _ (failure_message_dict d Hw)).
  reflexivity.
Qed.

End BuyItemClaims.

Lemma buy_item_confirms_then_resubmits_witness :
  let url := "https://steamcommunity.com/market/buylisting/4242" in
  let headers := listings_referer (H := Example.imports) Example.csgo "AK-47 | Redline" in
  let data := buy_item_data (PStr "abcdef0123456789") 1000 130 Example.usd in
  buy_item (H := Example.imports) Example.logged_in "AK-47 | Redline" "4242" 1000 130
    Example.csgo Example.usd Example.confirming_world []
  = (Ok Example.purchased,
     [Post url data headers;
      GetConfirmations "aWRlbnRpdHk=" "76561198000000000";
      SendConfirmation "aWRlbnRpdHk=" "76561198000000000" (PDict {[ "id" := PStr "c1" ]});
      SendConfirmation "aWRlbnRpdHk=" "76561198000000000" (PDict {[ "id" := PStr "c2" ]});
      Sleep 1;
      Post url (<["confirmation" := PStr "15431813067"]> data) headers]).
Proof.
  refine (proj1
    (buy_item_confirms_then_resubmits (H := Example.imports) Example.logged_in
       "AK-47 | Redline" "4242" 1000 130 Example.csgo Example.usd Example.confirming_world
       (PStr "abcdef0123456789") (Example.json_response Example.needs_confirmation)
       Example.needs_confirmation_fields (PInt 22) Example.confirmation_block
       (PStr "15431813067") Example.guard "aWRlbnRpdHk=" "76561198000000000"
       Example.two_pending (Example.json_response Example.purchased) Example.purchased
       _ _ _ _ _ _ _ _ _ _ _ _ _ _ _ _ _));
    try reflexivity.
  intros k _. eexists. reflexivity.
Defined.

(** The wallet-success test is made first, as the "else if" of the
    specification has it: a first response that satisfies it is returned at
    once even when its top-level [success] is 22 and it holds a confirmation
    id.  The trace is the one submission. *)
Lemma buy_item_wallet_success_comes_first :
  let run := buy_item (H := Example.imports) Example.logged_in "AK-47 | Redline" "4242" 1000 130
               Example.csgo Example.usd (Example.always (PDict Example.paid_and_pending)) [] in
  Example.paid_and_pending !! "success" = Some (PInt 22)
  ∧ Example.paid_and_pending !! "confirmation" = Some (PDict Example.confirmation_block)
  ∧ Example.confirmation_block !! "confirmation_id" = Some (PStr "15431813067")
  ∧ fst run = Ok (PDict Example.paid_and_pending)
  ∧ snd run = [Post "https://steamcommunity.com/market/buylisting/4242"
                 (buy_item_data (PStr "abcdef0123456789") 1000 130 Example.usd)
                 (listings_referer (H := Example.imports) Example.csgo "AK-47 | Redline")]
  ∧ ¬ (∃ identity_secret steamid, GetConfirmations identity_secret steamid ∈ snd run).
Proof.
  intros run.
  assert (Ht : snd run = [Post "https://steamcommunity.com/market/buylisting/4242"
                 (buy_item_data (PStr "abcdef0123456789") 1000 130 Example.usd)
                 (listings_referer (H := Example.imports) Example.csgo "AK-47 | Redline")])
    by (vm_compute; reflexivity).
  repeat split; try (vm_compute; reflexivity).
  intros (i & s & Hin). rewrite Ht in Hin.
  apply list_elem_of_singleton in Hin. discriminate.
Qed.

Lemma buy_item_resubmission_frame_witness :
  let url := "https://steamcommunity.com/market/buylisting/4242" in
  let headers := listings_referer (H := Example.imports) Example.csgo "AK-47 | Redline" in
  let data := buy_item_data (PStr "abcdef0123456789") 1000 130 Example.usd in
  let data' : dict := <["confirmation" := PStr "15431813067"]> data in
  snd (buy_item (H := Example.imports) Example.logged_in "AK-47 | Redline" "4242" 1000 130
         Example.csgo Example.usd Example.confirming_world [])
  = [Post url data headers;
     GetConfirmations "aWRlbnRpdHk=" "76561198000000000";
     SendConfirmation "aWRlbnRpdHk=" "76561198000000000" (PDict {[ "id" := PStr "c1" ]});
     SendConfirmation "aWRlbnRpdHk=" "76561198000000000" (PDict {[ "id" := PStr "c2" ]});
     Sleep 1;
     Post url data' headers]
  ∧ ∀ k, k ≠ "confirmation" → data' !! k = data !! k.
Proof.
  pose proof
    (buy_item_resubmission_frame (H := Example.imports) Example.logged_in
       "AK-47 | Redline" "4242" 1000 130 Example.csgo Example.usd Example.confirming_world
       (PStr "abcdef0123456789") (Example.json_response Example.needs_confirmation)
       Example.needs_confirmation_fields (PInt 22) Example.confirmation_block
       (PStr "15431813067") Example.guard "aWRlbnRpdHk=" "76561198000000000"
       Example.two_pending (Example.json_response Example.purchased) Example.purchased) as Hframe.
  cbv zeta in Hframe.
  destruct Hframe as (Htrace & _ & _ & Hother & _); try reflexivity.
  - intros k _. eexists. reflexivity.
  - split; [exact Htrace | exact Hother].
Defined.

Lemma buy_item_failure_message_witness :
  buy_item (H := Example.imports) Example.logged_in "AK-47 | Redline" "4242" 1000 130
    Example.csgo Example.usd (Example.always (PDict Example.unavailable)) []
  = (Raise (Exn ApiException [FLit "Failed to buy item. Steam message: ";
                              FVal (PStr "The listing is no longer available")]),
     [Post "https://steamcommunity.com/market/buylisting/4242"
        (buy_item_data (PStr "abcdef0123456789") 1000 130 Example.usd)
        (listings_referer (H := Example.imports) Example.csgo "AK-47 | Redline")]).
Proof.
  refine (buy_item_failure_message (H := Example.imports) Example.logged_in
            "AK-47 | Redline" "4242" 1000 130 Example.csgo Example.usd
            (Example.always (PDict Example.unavailable)) (PStr "abcdef0123456789")
            (Example.json_response (PDict Example.unavailable)) Example.unavailable
            _ _ _ _ _ _); reflexivity.
Defined.

(** C5, as stated, fails when the top-level message is present and empty.
    Neither condition holds of the response; its top-level [message] is
    present, and is the empty string; the exception carries the message of
    [wallet_info] and not the top-level one. *)
Lemma buy_item_falls_back_on_empty_message :
  wallet_success (PDict Example.refused) = Ok false
  ∧ confirmation_required (PDict Example.refused) = Ok false
  ∧ Example.refused !! "message" = Some (PStr "")
  ∧ spec_failure_message Example.refused = PStr ""
  ∧ fst (buy_item (H := Example.imports) Example.logged_in "AK-47 | Redline" "4242" 1000 130
           Example.csgo Example.usd (Example.always (PDict Example.refused)) [])
    = Raise (Exn ApiException [FLit "Failed to buy item. Steam message: ";
                               FVal (PStr "Insufficient funds")])
  ∧ fst (buy_item (H := Example.imports) Example.logged_in "AK-47 | Redline" "4242" 1000 130
           Example.csgo Example.usd (Example.always (PDict Example.refused)) [])
    ≠ Raise (Exn ApiException [FLit "Failed to buy item. Steam message: ";
                               FVal (spec_failure_message Example.refused)]).
Proof.
  repeat split; try (vm_compute; reflexivity).
  vm_compute. discriminate.
Qed.

(** C4: the code at a mistyped confirmation.  The first response asks
    for a confirmation ([success] is 22) and its [confirmation] field is a
    string instead of an object.  The call ends with an [AttributeError]
    raised by the test that guards the confirmation step, outside its [try]:
    neither of the two [ApiException]s of that step is raised. *)
Theorem buy_item_mistyped_confirmation_escapes :
  buy_item (H := Example.imports) Example.logged_in "AK-47 | Redline" "4242" 1000 130
    Example.csgo Example.usd (Example.always Example.mistyped_confirmation) []
  = (Raise (Exn AttributeError
              [FLit "'"; FLit "str"; FLit "' object has no attribute '"; FLit "get"; FLit "'"]),
     [Post "https://steamcommunity.com/market/buylisting/4242"
        (buy_item_data (PStr "abcdef0123456789") 1000 130 Example.usd)
        (listings_referer (H := Example.imports) Example.csgo "AK-47 | Redline")]).
Proof. vm_compute. reflexivity. Qed.

(** The same with a null [confirmation] field. *)
Example buy_item_null_confirmation_escapes :
  fst (buy_item (H := Example.imports) Example.logged_in "AK-47 | Redline" "4242" 1000 130
         Example.csgo Example.usd (Example.always Example.null_confirmation) [])
  = Raise (Exn AttributeError
             [FLit "'"; FLit "NoneType"; FLit "' object has no attribute '"; FLit "get";
              FLit "'"]).
Proof. vm_compute. reflexivity. Qed.

(** Inside the confirmation step, a [KeyError] raised by the confirmation
    service is reported as invalid confirmation data, and any other
    [Exception] as an error of the second step that wraps its cause. *)
Example buy_item_reports_service_KeyError :
  fst (buy_item (H := Example.imports) Example.logged_in "AK-47 | Redline" "4242" 1000 130
         Example.csgo Example.usd
         (Example.failing_confirmations Example.needs_confirmation
            (Exn KeyError [FVal (PStr "conf")])) [])
  = Raise (Exn ApiException
             [FLit "Steam requested confirmation, but returned invalid data (confirmation_id)."]).
Proof. vm_compute. reflexivity. Qed.

Example buy_item_reports_service_ConnectionError :
  fst (buy_item (H := Example.imports) Example.logged_in "AK-47 | Redline" "4242" 1000 130
         Example.csgo Example.usd
         (Example.failing_confirmations Example.needs_confirmation
            (Exn ConnectionError [FLit "Connection aborted."])) [])
  = Raise (Exn ApiException
             [FLit "An error occurred during the second confirmation step: ";
              FExn (Exn ConnectionError [FLit "Connection aborted."])]).
Proof. vm_compute. reflexivity. Qed.

(** ** Listing retrieval: the requests after the landing page *)

Section Pagination.
Context `{Imports}.

(** One fetch makes one request, whatever comes of it. *)
Lemma fetch_and_merge_trace url listings w t :
  snd (fetch_and_merge url listings w t) = (t ++ [Get url])%list.
Proof.
  unfold fetch_and_merge, session_get. rewrite bind_perform.
  destruct (http w _) as [r | e]; [| reflexivity].
  destruct (negb (status_code r =? HTTPStatus_OK)); [reflexivity |].
  unfold_monad.
  repeat match goal with
         | |- context [match ?x with Ok _ => _ | Raise _ => _ end] => destruct x; simpl
         end; reflexivity.
Qed.

(** The paginated loop, when every fetch succeeds on the collections that
    satisfy an invariant [P], asks for the pages at the offsets it is given,
    in order. *)
Lemma paginated_loop_trace w n_showing offsets (P : pyval → Prop) :
  (∀ url listings t,
     P listings →
     ∃ listings', fetch_and_merge url listings w t = (Ok listings', (t ++ [Get url])%list)
                  ∧ P listings') →
  ∀ listings t,
    P listings →
    ∃ listings',
      for_fold offsets listings
        (λ listings i, fetch_and_merge (page_url (n_showing + i)) listings) w t
      = (Ok listings', (t ++ ((λ i, Get (page_url (n_showing + i))) <$> offsets))%list)
      ∧ P listings'.
Proof.
  intros Hok. induction offsets as [| i offsets IH]; intros listings t HP.
  - exists listings. simpl. rewrite app_nil_r. by split.
  - destruct (Hok (page_url (n_showing + i)) listings t HP) as (l1 & H1 & HP1).
    destruct (IH l1 (t ++ [Get (page_url (n_showing + i))])%list HP1) as (l2 & H2 & HP2).
    exists l2. split; [| done].
    simpl. rewrite (bind_run _ _ _ _ _ _ H1), H2, <- app_assoc. reflexivity.
Qed.

(** The plan of the code.  Below the threshold there is one bulk request
    from [n_showing] with [count=-1]; otherwise, when every fetch succeeds on
    the collections that satisfy [P], there is one request of 100 entries
    for each [i] of [range(0, n_total, 100)], at offset [n_showing + i]. *)
Lemma fetch_remaining_trace w n_showing n_total listings t (P : pyval → Prop) :
  (∀ url listings t,
     P listings →
     ∃ listings', fetch_and_merge url listings w t = (Ok listings', (t ++ [Get url])%list)
                  ∧ P listings') →
  P listings →
  snd (fetch_remaining n_showing n_total listings w t)
  = (t ++ if ((n_showing <? n_total) && (n_total <? 1000))%bool
          then [Get (bulk_url n_showing)]
          else (λ start, Get (page_url start)) <$> loop_offsets n_showing n_total)%list.
Proof.
  intros Hok HP. unfold fetch_remaining.
  destruct ((n_showing <? n_total) && (n_total <? 1000))%bool.
  - apply fetch_and_merge_trace.
  - destruct (paginated_loop_trace w n_showing (py_range 0 n_total 100) P Hok listings t HP)
      as (l' & Hl' & _).
    rewrite Hl'. unfold loop_offsets. rewrite <- list_fmap_compose. reflexivity.
Qed.

Lemma range_from_length n start step : List.length (range_from n start step) = n.
Proof. revert start. induction n as [| n IH]; intros start; simpl; [| rewrite IH]; reflexivity. Qed.

(** X10.  The loop makes [ceil(n_total / 100)] requests, whatever [n_showing] is. *)
Lemma loop_offsets_length n_showing n_total :
  List.length (loop_offsets n_showing n_total) = Z.to_nat ((n_total + 99) / 100).
Proof.
  unfold loop_offsets, py_range. rewrite length_fmap, range_from_length.
  f_equal. f_equal. lia.
Qed.

Lemma range_from_shift n start step k :
  (λ i, k + i) <$> range_from n start step = range_from n (k + start) step.
Proof.
  revert start. induction n as [| n IH]; intros start; simpl; [reflexivity |].
  rewrite IH. do 2 f_equal. lia.
Qed.

(** From offset zero the loop asks for the pages of the specification. *)
Lemma loop_offsets_from_zero n_total :
  loop_offsets 0 n_total = spec_page_offsets 0 n_total.
Proof.
  unfold loop_offsets, spec_page_offsets, py_range. rewrite range_from_shift. reflexivity.
Qed.

End Pagination.

(** The example of the specification: nothing shown of 1500 gives fifteen
    requests at offsets 0, 100, ..., 1400. *)
Example loop_offsets_0_1500 :
  loop_offsets 0 1500
  = [0; 100; 200; 300; 400; 500; 600; 700; 800; 900; 1000; 1100; 1200; 1300; 1400].
Proof. reflexivity. Qed.

(** Below the threshold: 50 shown of 200 gives the one bulk request from 50. *)
Example bulk_request_50_of_200 :
  snd (fetch_remaining (H := Example.imports) 50 200 Example.no_listings Example.listing_world [])
  = [Get "https://steamcommunity.com/market/mylistings/render/?query=&start=50&count=-1"].
Proof. vm_compute. reflexivity. Qed.

(** C2: the code at 10 listings shown of 1,005.  The landing page is
    followed by eleven paginated requests, and the last one starts at offset
    1010, past the total; advancing from 10 by 100 until the offset reaches
    1005 gives ten requests, the last one at 910. *)
Theorem get_my_market_listings_overshoots :
  snd (get_my_market_listings (H := Example.imports) Example.logged_in Example.listing_world [])
  = Get "https://steamcommunity.com/market"
      :: ((λ start, Get (page_url (H := Example.imports) start))
            <$> [10; 110; 210; 310; 410; 510; 610; 710; 810; 910; 1010])
  ∧ page_url (H := Example.imports) 1010
    = "https://steamcommunity.com/market/mylistings/?query=&start=1010&count=100"
  ∧ loop_offsets 10 1005 = [10; 110; 210; 310; 410; 510; 610; 710; 810; 910; 1010]
  ∧ spec_page_offsets 10 1005 = [10; 110; 210; 310; 410; 510; 610; 710; 810; 910].
Proof. repeat split; vm_compute; reflexivity. Qed.

(** When everything is already shown the loop still asks for a page: 10
    shown of 10 gives one request at offset 10, where the specification's
    plan has none. *)
Example loop_offsets_all_shown :
  loop_offsets 10 10 = [10] ∧ spec_page_offsets 10 10 = [].
Proof. split; reflexivity. Qed.

(** ** Prices: the rate limit *)

Section Prices.
Context `{Imports}.

(** X1.  [fetch_price] raises [TooManyRequests] exactly when the status is 429,
    whatever the body holds; otherwise its outcome is the decoded body. *)
Lemma fetch_price_rate_limit self item_hash_name game currency country w t r :
  let request :=
    GetQuery (COMMUNITY_URL ++ "/market/priceoverview/")
      {[ "country" := PStr country;
         "currency" := PInt (currency_value currency);
         "appid" := PStr (app_id game);
         "market_hash_name" := PStr item_hash_name ]} in
  http w (t ++ [request])%list = Ok r →
  fetch_price self item_hash_name game currency country w t
  = (if status_code r =? HTTPStatus_TOO_MANY_REQUESTS then Raise too_many_requests else json r,
     (t ++ [request])%list).
Proof.
  intros request Hr. unfold fetch_price, session_get_query.
  rewrite bind_perform. fold request. rewrite Hr.
  destruct (status_code r =? HTTPStatus_TOO_MANY_REQUESTS); reflexivity.
Qed.

End Prices.

(** * Further properties of the code *)

Lemma bind_lift {A B} (r : result A) (k : A → M B) w t :
  (x ← lift r; k x) w t =
  match r with
  | Ok a => k a w t
  | Raise e => (Raise e, t)
  end.
Proof. destruct r; reflexivity. Qed.

(** ** Listing retrieval *)

Section Listings.
Context `{Imports}.

(** The trace of the paginated loop, whatever the world answers. *)
Lemma paginated_requests_are_prefix_aux w n_showing offsets listings t :
  ∃ k,
    snd (for_fold offsets listings
           (λ listings i, fetch_and_merge (page_url (n_showing + i)) listings) w t)
    = (t ++ ((λ i, Get (page_url (n_showing + i))) <$> take k offsets))%list.
Proof.
  revert listings t. induction offsets as [| i offsets IH]; intros listings t.
  - exists 0%nat. simpl. by rewrite app_nil_r.
  - pose proof (fetch_and_merge_trace (page_url (n_showing + i)) listings w t) as Ht.
    simpl. rewrite bind_unfold.
    destruct (fetch_and_merge (page_url (n_showing + i)) listings w t) as [[l1 | e] t1];
      simpl in Ht; subst t1.
    + destruct (IH l1 (t ++ [Get (page_url (n_showing + i))])%list) as (k & Htr).
      exists (S k). rewrite Htr, <- app_assoc. reflexivity.
    + exists 1%nat. reflexivity.
Qed.

(** X6.  Whatever the world answers, the requests of the paginated loop are
    an initial part of its plan, in the plan's order: the loop stops at the
    first fetch that fails, and when it returns a collection every planned
    request has been made. *)
Theorem paginated_requests_are_prefix w n_showing offsets listings t :
  ∃ k,
    (k ≤ List.length offsets)%nat
    ∧ snd (for_fold offsets listings
             (λ listings i, fetch_and_merge (page_url (n_showing + i)) listings) w t)
      = (t ++ ((λ i, Get (page_url (n_showing + i))) <$> take k offsets))%list
    ∧ (∀ result,
         fst (for_fold offsets listings
                (λ listings i, fetch_and_merge (page_url (n_showing + i)) listings) w t)
         = Ok result → k = List.length offsets).
Proof.
  revert listings t. induction offsets as [| i offsets IH]; intros listings t.
  - exists 0%nat. simpl. rewrite app_nil_r. repeat split; lia.
  - pose proof (fetch_and_merge_trace (page_url (n_showing + i)) listings w t) as Ht.
    simpl. rewrite bind_unfold.
    destruct (fetch_and_merge (page_url (n_showing + i)) listings w t) as [[l1 | e] t1];
      simpl in Ht; subst t1.
    + destruct (IH l1 (t ++ [Get (page_url (n_showing + i))])%list) as (k & Hk & Htr & Hok).
      exists (S k). split; [simpl; lia |]. split.
      * rewrite Htr, <- app_assoc. reflexivity.
      * intros result Hres. by rewrite (Hok result Hres).
    + exists 1%nat. split; [simpl; lia |]. split.
      * reflexivity.
      * intros result Hres. discriminate.
Qed.

(** X3.  A landing page whose status is not OK ends the call with an
    [ApiException] that carries the status code; the landing page is the
    only request made. *)
Theorem get_my_market_listings_landing_not_ok self w r :
  was_login_executed self = true →
  http w [Get (COMMUNITY_URL ++ "/market")] = Ok r →
  status_code r ≠ HTTPStatus_OK →
  get_my_market_listings self w []
  = (Raise (Exn ApiException
              [FLit "There was a problem getting the listings. HTTP code: ";
               FVal (PInt (status_code r))]),
     [Get (COMMUNITY_URL ++ "/market")]).
Proof.
  intros Hl Hr Hs. unfold get_my_market_listings. rewrite login_required_passes by done.
  unfold session_get. rewrite bind_perform. simpl. rewrite Hr.
  destruct (Z.eqb_spec (status_code r) HTTPStatus_OK); [done | reflexivity].
Qed.

(** X4.  When the landing page has no end marker, the call returns the
    listings of the landing page, merged with their descriptions, after that
    one request: no further page is fetched. *)
Theorem get_my_market_listings_without_markers
    self w r assets_text assets_descriptions addresses listings merged :
  was_login_executed self = true →
  http w [Get (COMMUNITY_URL ++ "/market")] = Ok r →
  status_code r = HTTPStatus_OK →
  text_between (text r) "var g_rgAssets = " (";" ++ newline) = Ok assets_text →
  json_loads assets_text = Ok assets_descriptions →
  get_listing_id_to_assets_address_from_html (PStr (text r)) = Ok addresses →
  get_market_listings_from_html (PStr (text r)) = Ok listings →
  merge_items_with_descriptions_from_listing listings addresses assets_descriptions = Ok merged →
  contains end_marker (text r) = false →
  get_my_market_listings self w [] = (Ok merged, [Get (COMMUNITY_URL ++ "/market")]).
Proof.
  intros Hl Hr Hs Ht Hj Ha Hls Hm Hc.
  unfold get_my_market_listings. rewrite login_required_passes by done.
  unfold session_get. rewrite bind_perform. simpl. rewrite Hr, Hs. simpl.
  rewrite (bind_lift_Ok _ _ _ _ _ Ht), (bind_lift_Ok _ _ _ _ _ Hj),
    (bind_lift_Ok _ _ _ _ _ Ha), (bind_lift_Ok _ _ _ _ _ Hls), (bind_lift_Ok _ _ _ _ _ Hm).
  rewrite Hc. reflexivity.
Qed.

(** The requests after the landing page are GETs, whatever the world
    answers. *)
Lemma fetch_remaining_only_gets w n_showing n_total listings t :
  ∃ rest,
    snd (fetch_remaining n_showing n_total listings w t) = (t ++ rest)%list
    ∧ Forall (λ ev, ∃ url, ev = Get url) rest.
Proof.
  unfold fetch_remaining.
  destruct ((n_showing <? n_total) && (n_total <? 1000))%bool.
  - eexists. split; [apply fetch_and_merge_trace |]. repeat constructor. by eexists.
  - destruct (paginated_requests_are_prefix_aux w n_showing (py_range 0 n_total 100) listings t)
      as (k & Htr).
    eexists. split; [exact Htr |].
    apply Forall_fmap, Forall_forall. intros i _. by eexists.
Qed.

(** X5.  [get_my_market_listings] only reads: whatever the world answers,
    its first request is the GET of the landing page and every request
    after it is a GET. *)
Theorem get_my_market_listings_only_gets self w :
  was_login_executed self = true →
  ∃ rest,
    snd (get_my_market_listings self w []) = Get (COMMUNITY_URL ++ "/market") :: rest
    ∧ Forall (λ ev, ∃ url, ev = Get url) rest.
Proof.
  intros Hl. unfold get_my_market_listings. rewrite login_required_passes by done.
  unfold session_get. rewrite bind_perform. simpl.
  assert (Hstop : ∀ e : exn,
    ∃ rest, snd (Raise (A := pyval) e, [Get (COMMUNITY_URL ++ "/market")])
            = Get (COMMUNITY_URL ++ "/market") :: rest
            ∧ Forall (λ ev, ∃ url, ev = Get url) rest)
    by (intros e; exists []; by split).
  destruct (http w _) as [r | e]; [| apply Hstop].
  destruct (negb (status_code r =? HTTPStatus_OK)); [apply Hstop |].
  repeat (rewrite bind_lift;
          match goal with
          | |- context [match ?x with Ok _ => _ | Raise _ => _ end] =>
              destruct x; [| apply Hstop]
          end).
  destruct (contains end_marker (text r)).
  - repeat (rewrite bind_lift;
            match goal with
            | |- context [match ?x with Ok _ => _ | Raise _ => _ end] =>
                destruct x; [| apply Hstop]
            end).
    match goal with
    | |- context [fetch_remaining ?s ?n ?l w ?t] =>
        destruct (fetch_remaining_only_gets w s n l t) as (rest & Htr & Hall)
    end.
    exists rest. by rewrite Htr.
  - exists []. by split.
Qed.

(** An offset is asked for by the loop exactly when it is [n_showing] plus
    a multiple of 100 that lies below [n_total]. *)
Lemma range_from_elem n start step x :
  x ∈ range_from n start step ↔ ∃ k : nat, (k < n)%nat ∧ x = start + Z.of_nat k * step.
Proof.
  revert start. induction n as [| n IH]; intros start; simpl.
  - split; [by intros ?%elem_of_nil | intros (k & Hk & _); lia].
  - rewrite elem_of_cons, IH. split.
    + intros [-> | (k & Hk & ->)].
      * exists 0%nat. split; lia.
      * exists (S k). split; lia.
    + intros ([| k] & Hk & ->).
      * left. lia.
      * right. exists k. split; lia.
Qed.

(** X9.  The offsets of the paginated loop are exactly [n_showing + 100 k]
    for the [k >= 0] with [100 k < n_total]; none is asked for twice. *)
Theorem loop_offsets_spec n_showing n_total :
  (∀ offset,
     offset ∈ loop_offsets n_showing n_total
     ↔ ∃ k, 0 ≤ k ∧ 100 * k < n_total ∧ offset = n_showing + 100 * k)
  ∧ NoDup (loop_offsets n_showing n_total).
Proof.
  split.
  - intros offset. unfold loop_offsets, py_range. rewrite list_elem_of_fmap.
    setoid_rewrite range_from_elem. split.
    + intros (i & -> & k & Hk & ->). exists (Z.of_nat k).
      assert (Z.of_nat k < (n_total - 0 + 100 - 1) / 100) by lia.
      repeat split; [lia | | lia].
      Z.div_mod_to_equations. lia.
    + intros (k & Hk0 & Hk & ->). exists (100 * k). split; [done |].
      exists (Z.to_nat k). split; [| lia].
      assert (k < (n_total - 0 + 100 - 1) / 100) by (Z.div_mod_to_equations; lia).
      lia.
  - unfold loop_offsets, py_range.
    apply NoDup_fmap_2; [intros a b; lia |].
    generalize (Z.to_nat ((n_total - 0 + 100 - 1) / 100)) as n.
    generalize 0 as start.
    intros start n. revert start. induction n as [| n IH]; intros start; simpl.
    + constructor.
    + constructor; [| apply IH].
      rewrite range_from_elem. intros (k & _ & Hk). lia.
Qed.

End Listings.

Lemma get_my_market_listings_landing_not_ok_witness :
  get_my_market_listings (H := Example.imports) Example.logged_in (Example.status_only 503) []
  = (Raise (Exn ApiException
              [FLit "There was a problem getting the listings. HTTP code: "; FVal (PInt 503)]),
     [Get "https://steamcommunity.com/market"]).
Proof.
  apply (get_my_market_listings_landing_not_ok (H := Example.imports) Example.logged_in
           (Example.status_only 503)
           {| status_code := 503; text := "";
              json := Raise (Exn ValueError [FLit "Expecting value"]) |});
    [reflexivity | reflexivity | vm_compute; discriminate].
Defined.

Lemma get_my_market_listings_without_markers_witness :
  get_my_market_listings (H := Example.imports) Example.logged_in Example.plain_world []
  = (Ok Example.no_listings, [Get "https://steamcommunity.com/market"]).
Proof.
  apply (get_my_market_listings_without_markers (H := Example.imports) Example.logged_in
           Example.plain_world (Example.page_response Example.plain_text)
           "[]" (PDict ∅) (PDict ∅) Example.no_listings Example.no_listings);
    vm_compute; reflexivity.
Defined.

Lemma get_my_market_listings_only_gets_witness :
  ∃ rest,
    snd (get_my_market_listings (H := Example.imports) Example.logged_in Example.listing_world [])
    = Get "https://steamcommunity.com/market" :: rest
    ∧ Forall (λ ev, ∃ url, ev = Get url) rest.
Proof.
  apply (get_my_market_listings_only_gets (H := Example.imports) Example.logged_in
           Example.listing_world).
  reflexivity.
Defined.

Lemma fetch_remaining_trace_witness :
  snd (fetch_remaining (H := Example.imports) 10 1005 Example.no_listings Example.listing_world [])
  = (λ start, Get (page_url (H := Example.imports) start))
      <$> [10; 110; 210; 310; 410; 510; 610; 710; 810; 910; 1010].
Proof.
  apply (fetch_remaining_trace (H := Example.imports) Example.listing_world 10 1005
           Example.no_listings [] (λ listings, listings = Example.no_listings));
    [| reflexivity].
  intros url listings t ->. exists Example.no_listings. split; [| reflexivity].
  vm_compute. reflexivity.
Defined.

(** ** Merging, continued *)

Section MergingMore.

(** A merge that succeeds was given two objects with a dictionary under
    ['sell_listings'], and returns the first with that entry overlaid. *)
Lemma merge_sell_listings_Ok_inv l l2 l' :
  merge_sell_listings l l2 = Ok l' →
  ∃ d1 d2 s1 s2 : dict,
    l = PDict d1 ∧ l2 = PDict d2
    ∧ d1 !! "sell_listings" = Some (PDict s1)
    ∧ d2 !! "sell_listings" = Some (PDict s2)
    ∧ l' = PDict (<["sell_listings" := PDict (s2 ∪ s1)]> d1).
Proof.
  unfold merge_sell_listings. intros Hm.
  destruct l as [| | | | | | d1]; try discriminate. simpl in Hm.
  destruct (d1 !! "sell_listings") as [[| | | | | | s1] |] eqn:E1; try discriminate.
  simpl in Hm.
  destruct l2 as [| | | | | | d2]; try discriminate. simpl in Hm.
  destruct (d2 !! "sell_listings") as [[| | | | | | s2] |] eqn:E2; try discriminate.
  simpl in Hm. exists d1, d2, s1, s2. repeat split; congruence.
Qed.

(** X11.  The listing ids under ['sell_listings'] after a merge are the ids
    of the first collection together with those of the second. *)
Theorem merge_sell_listings_keys (d1 d2 s1 s2 : dict) :
  d1 !! "sell_listings" = Some (PDict s1) →
  d2 !! "sell_listings" = Some (PDict s2) →
  ∃ merged sells : dict,
    merge_sell_listings (PDict d1) (PDict d2) = Ok (PDict merged)
    ∧ merged !! "sell_listings" = Some (PDict sells)
    ∧ dom sells = dom s1 ∪ dom s2.
Proof.
  intros H1 H2. exists (<["sell_listings" := PDict (s2 ∪ s1)]> d1), (s2 ∪ s1).
  split; [by apply merge_sell_listings_dicts |].
  split; [by rewrite lookup_insert_eq |].
  rewrite dom_union_L. apply (comm_L (∪)).
Qed.

(** X12.  Merging the same page a second time changes nothing. *)
Theorem merge_sell_listings_idempotent l page l' :
  merge_sell_listings l page = Ok l' →
  merge_sell_listings l' page = Ok l'.
Proof.
  intros (d1 & d2 & s1 & s2 & -> & -> & H1 & H2 & ->)%merge_sell_listings_Ok_inv.
  rewrite (merge_sell_listings_dicts _ d2 (s2 ∪ s1) s2); [| by rewrite lookup_insert_eq | done].
  by rewrite insert_insert_eq, (assoc_L (∪)), (idemp_L (∪)).
Qed.

(** X13.  A collection without the key ['sell_listings'] makes the merge
    raise [KeyError] for that key: the first collection is looked at first,
    then the fetched one. *)
Theorem merge_sell_listings_missing_key (d1 d2 : dict) :
  d1 !! "sell_listings" = None
  ∨ (∃ s1, d1 !! "sell_listings" = Some (PDict s1)) ∧ d2 !! "sell_listings" = None →
  merge_sell_listings (PDict d1) (PDict d2) = Raise (Exn KeyError [FVal (PStr "sell_listings")]).
Proof.
  unfold merge_sell_listings, py_getitem.
  intros [H1 | [[s1 H1] H2]]; rewrite H1; [reflexivity |]. simpl. by rewrite H2.
Qed.

(** X15.  Merging two pages one after the other gives what merging their
    overlay in one step gives. *)
Theorem merge_sell_listings_compose (d p1 p2 s s1 s2 : dict) :
  d !! "sell_listings" = Some (PDict s) →
  p1 !! "sell_listings" = Some (PDict s1) →
  p2 !! "sell_listings" = Some (PDict s2) →
  ∃ l1,
    merge_sell_listings (PDict d) (PDict p1) = Ok l1
    ∧ merge_sell_listings l1 (PDict p2)
      = merge_sell_listings (PDict d) (PDict {[ "sell_listings" := PDict (s2 ∪ s1) ]}).
Proof.
  intros Hd H1 H2. eexists. split; [by apply merge_sell_listings_dicts |].
  rewrite (merge_sell_listings_dicts _ p2 (s1 ∪ s) s2); [| by rewrite lookup_insert_eq | done].
  rewrite (merge_sell_listings_dicts d _ s (s2 ∪ s1)); [| done | by rewrite lookup_singleton_eq].
  by rewrite insert_insert_eq, (assoc_L (∪)).
Qed.

End MergingMore.

Lemma merge_sell_listings_keys_witness :
  ∃ merged sells : dict,
    merge_sell_listings (PDict MergeExample.first) (PDict MergeExample.second) = Ok (PDict merged)
    ∧ merged !! "sell_listings" = Some (PDict sells)
    ∧ dom sells = dom ({[ "s1" := PInt 100; "s2" := PInt 200 ]} : dict)
                  ∪ dom ({[ "s2" := PInt 250; "s3" := PInt 300 ]} : dict).
Proof.
  apply (merge_sell_listings_keys MergeExample.first MergeExample.second
           {[ "s1" := PInt 100; "s2" := PInt 200 ]} {[ "s2" := PInt 250; "s3" := PInt 300 ]});
    reflexivity.
Defined.

Lemma merge_sell_listings_idempotent_witness :
  merge_sell_listings
    (PDict (<["sell_listings" := PDict {[ "s1" := PInt 100; "s2" := PInt 250; "s3" := PInt 300 ]}]>
              MergeExample.first))
    (PDict MergeExample.second)
  = Ok (PDict (<["sell_listings" := PDict {[ "s1" := PInt 100; "s2" := PInt 250; "s3" := PInt 300 ]}]>
                 MergeExample.first)).
Proof.
  apply (merge_sell_listings_idempotent (PDict MergeExample.first) (PDict MergeExample.second)).
  vm_compute. reflexivity.
Defined.

Lemma merge_sell_listings_missing_key_witness :
  merge_sell_listings (PDict MergeExample.first) (PDict {[ "buy_orders" := PDict ∅ ]})
  = Raise (Exn KeyError [FVal (PStr "sell_listings")]).
Proof.
  apply (merge_sell_listings_missing_key MergeExample.first {[ "buy_orders" := PDict ∅ ]}).
  right. split; [eexists; reflexivity | reflexivity].
Defined.

Lemma merge_sell_listings_ignores_rest_witness :
  merge_sell_listings (PDict MergeExample.first) (PDict MergeExample.second)
  = merge_sell_listings (PDict MergeExample.first)
      (PDict {[ "sell_listings" := PDict {[ "s2" := PInt 250; "s3" := PInt 300 ]} ]}).
Proof.
  apply (merge_sell_listings_ignores_rest (PDict MergeExample.first) MergeExample.second
           {[ "sell_listings" := PDict {[ "s2" := PInt 250; "s3" := PInt 300 ]} ]}).
  reflexivity.
Defined.

Lemma merge_sell_listings_compose_witness :
  ∃ l1,
    merge_sell_listings (PDict MergeExample.first) (PDict MergeExample.second) = Ok l1
    ∧ merge_sell_listings l1 (PDict {[ "sell_listings" := PDict {[ "s4" := PInt 400 ]} ]})
      = merge_sell_listings (PDict MergeExample.first)
          (PDict {[ "sell_listings" :=
                      PDict ({[ "s4" := PInt 400 ]} ∪ {[ "s2" := PInt 250; "s3" := PInt 300 ]}) ]}).
Proof.
  apply (merge_sell_listings_compose MergeExample.first MergeExample.second
           {[ "sell_listings" := PDict {[ "s4" := PInt 400 ]} ]}
           {[ "s1" := PInt 100; "s2" := PInt 200 ]} {[ "s2" := PInt 250; "s3" := PInt 300 ]}
           {[ "s4" := PInt 400 ]}); reflexivity.
Defined.

Lemma fetch_price_rate_limit_witness :
  fetch_price (H := Example.imports) Example.fresh "AK-47 | Redline" Example.csgo Example.usd "PL"
    (Example.status_only 429) []
  = (Raise (Exn TooManyRequests [FLit "You can fetch maximum 20 prices in 60s period"]),
     [GetQuery "https://steamcommunity.com/market/priceoverview/"
        {[ "country" := PStr "PL"; "currency" := PInt 1; "appid" := PStr "730";
           "market_hash_name" := PStr "AK-47 | Redline" ]}]).
Proof.
  apply (fetch_price_rate_limit (H := Example.imports) Example.fresh "AK-47 | Redline"
           Example.csgo Example.usd "PL" (Example.status_only 429) []
           {| status_code := 429; text := "";
              json := Raise (Exn ValueError [FLit "Expecting value"]) |}).
  reflexivity.
Defined.

(** ** Orders, continued *)

Section OrdersMore.
Context `{Imports}.

(** X16.  Without an account id in the guard record, [create_sell_order]
    raises [KeyError] before anything is sent. *)
Theorem create_sell_order_without_steamid
    self assetid game money_to_receive w t (g : gmap string string) :
  was_login_executed self = true →
  _steam_guard self = Some g →
  g !! "steamid" = None →
  create_sell_order self assetid game money_to_receive w t
  = (Raise (Exn KeyError [FVal (PStr "steamid")]), t).
Proof.
  intros Hl Hg Hs. unfold create_sell_order. rewrite login_required_passes by done.
  rewrite bind_lift. unfold steam_guard_getitem. by rewrite Hg, Hs.
Qed.

(** X17.  The submit response is an object whose [message] is absent or
    a string.  When it asks for a confirmation and the guard record has no
    identity secret, the sell order has been submitted and the call raises
    [KeyError] without contacting the confirmation service. *)
Theorem create_sell_order_cannot_confirm
    self assetid game money_to_receive w (g : gmap string string) steamid r (d : dict) :
  was_login_executed self = true →
  _steam_guard self = Some g →
  g !! "steamid" = Some steamid →
  g !! "identity_secret" = None →
  let submit := Post (COMMUNITY_URL ++ "/market/sellitem/")
                  (create_sell_order_data self assetid game money_to_receive)
                  (inventory_referer steamid) in
  http w [submit] = Ok r →
  json r = Ok (PDict d) →
  (d !! "message" = None ∨ ∃ s, d !! "message" = Some (PStr s)) →
  (truthy (default PNone (d !! "needs_mobile_confirmation"))
   || (negb (truthy (default PNone (d !! "success")))
       && match d !! "message" with
          | Some (PStr s) => contains "pending confirmation" s
          | _ => false
          end))%bool = true →
  create_sell_order self assetid game money_to_receive w []
  = (Raise (Exn KeyError [FVal (PStr "identity_secret")]), [submit]).
Proof.
  intros Hl Hg Hs Hi submit Hr Hj Hmsg Hcond. subst submit.
  unfold create_sell_order. rewrite login_required_passes by done.
  assert (Hsid : steam_guard_getitem self "steamid" = Ok steamid)
    by (unfold steam_guard_getitem; by rewrite Hg, Hs).
  assert (Hids : steam_guard_getitem self "identity_secret"
                 = Raise (Exn KeyError [FVal (PStr "identity_secret")]))
    by (unfold steam_guard_getitem; by rewrite Hg, Hi).
  rewrite (bind_lift_Ok _ _ _ _ _ Hsid).
  unfold _confirm_sell_listing. unfold_monad. simpl. rewrite Hr, Hj, Hids. simpl.
  revert Hcond.
  destruct Hmsg as [Hm | [s Hm]]; rewrite Hm; simpl;
    (destruct (d !! "needs_mobile_confirmation") as [nm |]; simpl;
     [destruct (truthy nm); simpl; [reflexivity |] |]);
    (destruct (d !! "success") as [sc |]; simpl; [destruct (truthy sc) |]; simpl);
    rewrite ?andb_false_r; try discriminate;
    destruct (contains _ s); (reflexivity || discriminate).
Qed.

(** X20.  A price that [Decimal] refuses, or whose product with the
    quantity it refuses, ends [create_buy_order] with that error before
    anything is sent. *)
Theorem create_buy_order_refused_price
    self market_name price_single_item quantity game currency w t e :
  was_login_executed self = true →
  PyDecimal.of_str price_single_item = Raise e
  ∨ (∃ price, PyDecimal.of_str price_single_item = Ok price
              ∧ PyDecimal.mul price (PyDecimal.of_int quantity) = Raise e) →
  create_buy_order self market_name price_single_item quantity game currency w t = (Raise e, t).
Proof.
  intros Hl Hp. unfold create_buy_order. rewrite login_required_passes by done.
  destruct Hp as [Hp | (price & Hp & Hm)].
  - by rewrite (bind_lift_Raise _ _ _ _ _ Hp).
  - by rewrite (bind_lift_Ok _ _ _ _ _ Hp), (bind_lift_Raise _ _ _ _ _ Hm).
Qed.

(** X21.  An infinite price is not refused: with a quantity other than
    zero, the order is sent with the total ["Infinity"] or ["-Infinity"]. *)
Theorem create_buy_order_sends_infinity
    self market_name price_single_item quantity game currency w s :
  was_login_executed self = true →
  PyDecimal.of_str price_single_item = Ok (PyDecimal.DInf s) →
  quantity ≠ 0 →
  let total := PyDecimal.DInf (xorb s (quantity <? 0)) in
  let data := create_buy_order_data self market_name total quantity game currency in
  snd (create_buy_order self market_name price_single_item quantity game currency w [])
  = [Post (COMMUNITY_URL ++ "/market/createbuyorder/") data (listings_referer game market_name)]
  ∧ data !! "price_total"
    = Some (PStr (if xorb s (quantity <? 0) then "-Infinity" else "Infinity")).
Proof.
  intros Hl Hp Hq total data. split.
  - eapply create_buy_order_sends; [done | done |].
    unfold PyDecimal.mul, PyDecimal.of_int.
    destruct (N.eqb_spec (Z.abs_N quantity) 0) as [Hz | _]; [lia | reflexivity].
  - subst data total. unfold create_buy_order_data.
    destruct (xorb s (quantity <? 0)); reflexivity.
Qed.

(** X23.  The outcome of [cancel_sell_order] depends on the status code
    alone: [None] on OK, an [ApiException] that carries the code otherwise.
    The body of the response is never decoded. *)
Theorem cancel_sell_order_outcome self sell_listing_id w t r :
  was_login_executed self = true →
  let request := Post (COMMUNITY_URL ++ "/market/removelisting/" ++ sell_listing_id)
                   {[ "sessionid" := session_id_value self ]}
                   {[ "Referer" := PStr (COMMUNITY_URL ++ "/market/") ]} in
  http w (t ++ [request])%list = Ok r →
  cancel_sell_order self sell_listing_id w t
  = (if status_code r =? 200 then Ok tt
     else Raise (Exn ApiException
                   [FLit "There was a problem removing the listing. HTTP code: ";
                    FVal (PInt (status_code r))]),
     (t ++ [request])%list).
Proof.
  intros Hl request Hr. unfold cancel_sell_order. rewrite login_required_passes by done.
  unfold session_post, cancel_sell_order_data. rewrite bind_perform. fold request. rewrite Hr.
  unfold HTTPStatus_OK. destruct (status_code r =? 200); reflexivity.
Qed.

(** X22.  An answer that decodes to something other than a JSON object
    ends [create_buy_order] and [cancel_buy_order] with an [AttributeError],
    not with an [ApiException]. *)
Theorem buy_orders_non_object_answer
    self market_name price_single_item quantity game currency buy_order_id w
    price total r v r' v' :
  was_login_executed self = true →
  PyDecimal.of_str price_single_item = Ok price →
  PyDecimal.mul price (PyDecimal.of_int quantity) = Ok total →
  http w [Post (COMMUNITY_URL ++ "/market/createbuyorder/")
            (create_buy_order_data self market_name total quantity game currency)
            (listings_referer game market_name)] = Ok r →
  json r = Ok v →
  (∀ d, v ≠ PDict d) →
  http w [Post (COMMUNITY_URL ++ "/market/cancelbuyorder/")
            (cancel_buy_order_data self buy_order_id) market_referer] = Ok r' →
  json r' = Ok v' →
  (∀ d, v' ≠ PDict d) →
  fst (create_buy_order self market_name price_single_item quantity game currency w [])
  = Raise (Exn AttributeError
             [FLit "'"; FLit (type_name v); FLit "' object has no attribute '"; FLit "get";
              FLit "'"])
  ∧ fst (cancel_buy_order self buy_order_id w [])
    = Raise (Exn AttributeError
               [FLit "'"; FLit (type_name v'); FLit "' object has no attribute '"; FLit "get";
                FLit "'"]).
Proof.
  intros Hl Hp Hm Hr Hj Hv Hr' Hj' Hv'. split.
  - unfold create_buy_order. rewrite login_required_passes by done.
    rewrite (bind_lift_Ok _ _ _ _ _ Hp), (bind_lift_Ok _ _ _ _ _ Hm).
    rewrite (bind_run _ _ _ _ _ _ (session_post_json_run _ _ _ w [] r _ Hr Hj)).
    rewrite bind_lift. destruct v; try reflexivity. by destruct (Hv d).
  - unfold cancel_buy_order. rewrite login_required_passes by done.
    rewrite (bind_run _ _ _ _ _ _ (session_post_json_run _ _ _ w [] r' _ Hr' Hj')).
    rewrite bind_lift. destruct v'; try reflexivity. by destruct (Hv' d).
Qed.

End OrdersMore.

Lemma create_sell_order_without_steamid_witness :
  create_sell_order (H := Example.imports) Example.unguarded "27181999314" Example.csgo "1500"
    (Example.always Example.pending_sale) []
  = (Raise (Exn KeyError [FVal (PStr "steamid")]), []).
Proof.
  apply (create_sell_order_without_steamid (H := Example.imports) Example.unguarded
           "27181999314" Example.csgo "1500" (Example.always Example.pending_sale) [] ∅);
    reflexivity.
Defined.

Lemma create_sell_order_cannot_confirm_witness :
  create_sell_order (H := Example.imports) Example.half_guarded "27181999314" Example.csgo "1500"
    (Example.always Example.pending_sale) []
  = (Raise (Exn KeyError [FVal (PStr "identity_secret")]),
     [Post "https://steamcommunity.com/market/sellitem/"
        (create_sell_order_data Example.half_guarded "27181999314" Example.csgo "1500")
        (inventory_referer (H := Example.imports) "76561198000000000")]).
Proof.
  apply (create_sell_order_cannot_confirm (H := Example.imports) Example.half_guarded
           "27181999314" Example.csgo "1500" (Example.always Example.pending_sale)
           {[ "steamid" := "76561198000000000" ]} "76561198000000000"
           (Example.json_response Example.pending_sale)
           {[ "success" := PBool false;
              "message" := PStr "There is a pending confirmation for this item" ]});
    first [reflexivity | right; eexists; reflexivity].
Defined.

Lemma create_buy_order_refused_price_witness :
  create_buy_order (H := Example.imports) Example.logged_in "AK-47 | Redline" "0,33" 3
    Example.csgo Example.usd (Example.always (PDict {[ "success" := PInt 1 ]})) []
  = (Raise PyDecimal.InvalidOperation, []).
Proof.
  apply (create_buy_order_refused_price (H := Example.imports) Example.logged_in
           "AK-47 | Redline" "0,33" 3 Example.csgo Example.usd
           (Example.always (PDict {[ "success" := PInt 1 ]})) [] PyDecimal.InvalidOperation);
    [reflexivity | left; reflexivity].
Defined.

Lemma create_buy_order_sends_infinity_witness :
  snd (create_buy_order (H := Example.imports) Example.logged_in "AK-47 | Redline" "Infinity" 2
         Example.csgo Example.usd (Example.always (PDict {[ "success" := PInt 1 ]})) [])
  = [Post "https://steamcommunity.com/market/createbuyorder/"
       (create_buy_order_data Example.logged_in "AK-47 | Redline" (PyDecimal.DInf false) 2
          Example.csgo Example.usd)
       (listings_referer (H := Example.imports) Example.csgo "AK-47 | Redline")]
  ∧ create_buy_order_data Example.logged_in "AK-47 | Redline" (PyDecimal.DInf false) 2
      Example.csgo Example.usd !! "price_total" = Some (PStr "Infinity").
Proof.
  apply (create_buy_order_sends_infinity (H := Example.imports) Example.logged_in
           "AK-47 | Redline" "Infinity" 2 Example.csgo Example.usd
           (Example.always (PDict {[ "success" := PInt 1 ]})) false);
    [reflexivity | reflexivity | lia].
Defined.

Lemma cancel_sell_order_outcome_witness :
  cancel_sell_order (H := Example.imports) Example.logged_in "4242" (Example.status_only 500) []
  = (Raise (Exn ApiException
              [FLit "There was a problem removing the listing. HTTP code: "; FVal (PInt 500)]),
     [Post "https://steamcommunity.com/market/removelisting/4242"
        {[ "sessionid" := PStr "abcdef0123456789" ]}
        {[ "Referer" := PStr "https://steamcommunity.com/market/" ]}]).
Proof.
  apply (cancel_sell_order_outcome (H := Example.imports) Example.logged_in "4242"
           (Example.status_only 500) []
           {| status_code := 500; text := "";
              json := Raise (Exn ValueError [FLit "Expecting value"]) |});
    reflexivity.
Defined.

Lemma buy_orders_non_object_answer_witness :
  fst (create_buy_order (H := Example.imports) Example.logged_in "AK-47 | Redline" "0.33" 3
         Example.csgo Example.usd (Example.always (PList [])) [])
  = Raise (Exn AttributeError
             [FLit "'"; FLit "list"; FLit "' object has no attribute '"; FLit "get"; FLit "'"])
  ∧ fst (cancel_buy_order (H := Example.imports) Example.logged_in (PStr "5021")
           (Example.always (PList [])) [])
    = Raise (Exn AttributeError
               [FLit "'"; FLit "list"; FLit "' object has no attribute '"; FLit "get"; FLit "'"]).
Proof.
  apply (buy_orders_non_object_answer (H := Example.imports) Example.logged_in
           "AK-47 | Redline" "0.33" 3 Example.csgo Example.usd (PStr "5021")
           (Example.always (PList []))
           (PyDecimal.DFinite false 33 (-2)) (PyDecimal.DFinite false 99 (-2))
           (Example.json_response (PList [])) (PList [])
           (Example.json_response (PList [])) (PList []));
    first [reflexivity | intros d; discriminate].
Defined.

(** ** [buy_item], continued *)

Section BuyItemMore.
Context `{Imports}.

(** X24.  Without a [sessionid] cookie for the community domain,
    [buy_item] raises [KeyError] before anything is sent. *)
Theorem buy_item_without_cookie self market_name market_id price fee game currency w t :
  was_login_executed self = true →
  get_dict (_session self) "steamcommunity.com" !! "sessionid" = None →
  buy_item self market_name market_id price fee game currency w t
  = (Raise (Exn KeyError [FVal (PStr "sessionid")]), t).
Proof.
  intros Hl Hc. unfold buy_item. rewrite login_required_passes by done.
  rewrite bind_lift. unfold dict_getitem, py_getitem. by rewrite Hc.
Qed.

(** X26.  [buy_item] takes the session id from the cookies and never reads
    the one stored at login: with another stored session id it behaves the
    same. *)
Theorem buy_item_ignores_stored_session_id session guard session_id logged session_id'
    market_name market_id price fee game currency :
  buy_item {| _session := session; _steam_guard := guard; _session_id := session_id';
              was_login_executed := logged |} market_name market_id price fee game currency
  = buy_item {| _session := session; _steam_guard := guard; _session_id := session_id;
                was_login_executed := logged |} market_name market_id price fee game currency.
Proof. reflexivity. Qed.

(** Whatever the body of the confirmation step raises leaves it as an
    [ApiException], unless it is not an [Exception]; the handlers add no
    request. *)
Lemma confirmation_handlers_class (m : M pyval) w t e :
  fst (try_except m confirmation_handlers w t) = Raise e →
  exn_cls e = ApiException ∨ is_Exception e = false.
Proof.
  unfold try_except. destruct (m w t) as [[a | [cls msg]] t']; simpl; [discriminate |].
  unfold confirmation_handlers.
  destruct cls; simpl; intros [= <-]; auto.
Qed.

Lemma confirmation_handlers_trace (m : M pyval) w t :
  snd (try_except m confirmation_handlers w t) = snd (m w t).
Proof.
  unfold try_except. destruct (m w t) as [[a | [cls msg]] t']; simpl; [reflexivity |].
  unfold confirmation_handlers. destruct cls; reflexivity.
Qed.

(** X28.  Once the confirmation step is entered, no [Exception] other than
    an [ApiException] leaves [buy_item], whatever the confirmation service
    and the transport do. *)
Theorem buy_item_confirmation_step_raises_ApiException
    self market_name market_id price fee game currency w sessionid r1 (d : dict) e :
  was_login_executed self = true →
  get_dict (_session self) "steamcommunity.com" !! "sessionid" = Some sessionid →
  http w [Post (buylisting_url market_id) (buy_item_data sessionid price fee currency)
            (listings_referer game market_name)] = Ok r1 →
  json r1 = Ok (PDict d) →
  wallet_success (PDict d) = Ok false →
  confirmation_required (PDict d) = Ok true →
  fst (buy_item self market_name market_id price fee game currency w []) = Raise e →
  exn_cls e = ApiException ∨ is_Exception e = false.
Proof.
  intros Hl Hsid Hr1 Hj1 Hw Hc.
  rewrite (buy_item_first_response _ _ _ _ _ _ _ _ _ _ _ Hl Hsid Hr1 Hj1).
  rewrite (bind_lift_Ok _ _ _ _ _ Hw), (bind_lift_Ok _ _ _ _ _ Hc).
  apply confirmation_handlers_class.
Qed.

Lemma session_post_json_trace url data headers w t :
  snd (session_post_json url data headers w t) = (t ++ [Post url data headers])%list.
Proof.
  unfold session_post_json, session_post. rewrite bind_perform.
  destruct (http w _) as [r | e]; [| reflexivity]. unfold lift. reflexivity.
Qed.

Lemma for_each_send_confirmation_trace w identity_secret steamid confirmations t :
  ∃ k,
    snd (for_each confirmations
           (λ confirmation,
              perform (SendConfirmation identity_secret steamid confirmation) send_confirmation;;
              mret tt) w t)
    = (t ++ (SendConfirmation identity_secret steamid <$> take k confirmations))%list.
Proof.
  revert t. induction confirmations as [| c cs IH]; intros t.
  - exists 0%nat. simpl. by rewrite app_nil_r.
  - simpl. rewrite bind_unfold, bind_perform.
    destruct (send_confirmation w _) as [ack | e].
    + simpl. destruct (IH (t ++ [SendConfirmation identity_secret steamid c])%list) as [k Hk].
      exists (S k). rewrite Hk, <- app_assoc. reflexivity.
    + exists 1%nat. reflexivity.
Qed.

(** The confirmation service is only asked to list and to accept. *)
Lemma confirm_buy_listing_trace self w t :
  ∃ events,
    snd (_confirm_buy_listing self w t) = (t ++ events)%list
    ∧ Forall (λ ev, ∀ url data headers, ev ≠ Post url data headers) events.
Proof.
  unfold _confirm_buy_listing.
  rewrite bind_lift. destruct (steam_guard_getitem self "identity_secret") as [i | e];
    [| exists []; split; [by rewrite app_nil_r | constructor]].
  rewrite bind_lift. destruct (steam_guard_getitem self "steamid") as [s | e];
    [| exists []; split; [by rewrite app_nil_r | constructor]].
  rewrite bind_perform.
  destruct (get_confirmations w _) as [cs | e];
    [| exists [GetConfirmations i s]; split; [reflexivity | by repeat constructor]].
  rewrite bind_unfold.
  destruct (for_each_send_confirmation_trace w i s cs (t ++ [GetConfirmations i s])%list)
    as [k Hk].
  exists (GetConfirmations i s :: (SendConfirmation i s <$> take k cs)). split.
  - destruct (for_each cs _ w _) as [[[] | e] t1]; simpl in Hk; subst t1; simpl;
      by rewrite <- app_assoc.
  - constructor; [done |]. apply Forall_fmap, Forall_forall. by intros c _.
Qed.

(** X29.  Whatever the world answers, [buy_item] sends nothing, or begins
    with the submission and sends at most one further purchase request: that
    one is then the last interaction, to the same URL with the same headers
    and with the payload changed in [confirmation] only. *)
Theorem buy_item_trace_shape self market_name market_id price fee game currency w :
  let run := snd (buy_item self market_name market_id price fee game currency w []) in
  let url := buylisting_url market_id in
  let headers := listings_referer game market_name in
  run = []
  ∨ ∃ sessionid between,
      let data := buy_item_data sessionid price fee currency in
      Forall (λ ev, ∀ url data headers, ev ≠ Post url data headers) between
      ∧ (run = Post url data headers :: between
         ∨ ∃ cid,
             run = (Post url data headers :: between
                      ++ [Post url (<["confirmation" := cid]> data) headers])%list).
Proof.
  intros run url headers. subst run.
  unfold buy_item, login_required.
  destruct (was_login_executed self); [| by left].
  rewrite bind_lift.
  destruct (dict_getitem _ "sessionid") as [sessionid | e]; [| by left].
  right. exists sessionid. fold url headers.
  set (data := buy_item_data sessionid price fee currency).
  assert (Hstop : ∀ (r : result pyval),
    ∃ between,
      Forall (λ ev, ∀ url data headers, ev ≠ Post url data headers) between
      ∧ (snd (r, [Post url data headers]) = Post url data headers :: between
         ∨ ∃ cid,
             snd (r, [Post url data headers])
             = (Post url data headers :: between
                  ++ [Post url (<["confirmation" := cid]> data) headers])%list))
    by (intros r; exists []; split; [constructor | by left]).
  rewrite bind_unfold.
  pose proof (session_post_json_trace url data headers w []) as Hfirst.
  destruct (session_post_json url data headers w []) as [[response | e] t1];
    simpl in Hfirst; subst t1; [| apply Hstop].
  rewrite bind_lift. destruct (wallet_success response) as [[] | e]; try apply Hstop.
  rewrite bind_lift. destruct (confirmation_required response) as [[] | e]; try apply Hstop.
  - rewrite confirmation_handlers_trace.
    rewrite bind_lift. destruct (py_getitem response "confirmation") as [c | e];
      [| apply Hstop].
    rewrite bind_lift. destruct (py_getitem c "confirmation_id") as [cid | e];
      [| apply Hstop].
    cbv zeta. rewrite bind_unfold.
    destruct (confirm_buy_listing_trace self w [Post url data headers]) as (events & Hev & Hall).
    destruct (_confirm_buy_listing self w [Post url data headers]) as [[a | e] t1];
      simpl in Hev; subst t1.
    + exists (events ++ [Sleep 1])%list. split.
      * apply Forall_app. split; [done |]. by repeat constructor.
      * right. exists cid. rewrite bind_unfold, sleep_run, bind_unfold.
        pose proof (session_post_json_trace url (<["confirmation" := cid]> data) headers w
                      (([Post url data headers] ++ events) ++ [Sleep 1])%list) as Hsecond.
        destruct (session_post_json url (<["confirmation" := cid]> data) headers w _)
          as [[final | e] t2]; simpl in Hsecond; subst t2; simpl;
          by rewrite <- !app_assoc.
    + exists events. split; [done |]. by left.
  - rewrite bind_lift. destruct (failure_message response); apply Hstop.
Qed.

End BuyItemMore.

Lemma buy_item_without_cookie_witness :
  buy_item (H := Example.imports) Example.cookieless "AK-47 | Redline" "4242" 1000 130
    Example.csgo Example.usd (Example.always Example.purchased) []
  = (Raise (Exn KeyError [FVal (PStr "sessionid")]), []).
Proof.
  apply (buy_item_without_cookie (H := Example.imports) Example.cookieless "AK-47 | Redline"
           "4242" 1000 130 Example.csgo Example.usd (Example.always Example.purchased) []);
    reflexivity.
Defined.

Lemma buy_item_wallet_success_witness :
  buy_item (H := Example.imports) Example.logged_in "AK-47 | Redline" "4242" 1000 130
    Example.csgo Example.usd (Example.always Example.purchased) []
  = (Ok Example.purchased,
     [Post "https://steamcommunity.com/market/buylisting/4242"
        (buy_item_data (PStr "abcdef0123456789") 1000 130 Example.usd)
        (listings_referer (H := Example.imports) Example.csgo "AK-47 | Redline")]).
Proof.
  apply (buy_item_wallet_success (H := Example.imports) Example.logged_in "AK-47 | Redline"
           "4242" 1000 130 Example.csgo Example.usd (Example.always Example.purchased)
           (PStr "abcdef0123456789") (Example.json_response Example.purchased)
           {[ "wallet_info" := PDict {[ "success" := PInt 1; "wallet_balance" := PStr "1234" ]} ]});
    reflexivity.
Defined.

Lemma buy_item_confirmation_service_fails_witness :
  buy_item (H := Example.imports) Example.logged_in "AK-47 | Redline" "4242" 1000 130
    Example.csgo Example.usd
    (Example.failing_confirmations Example.needs_confirmation
       (Exn KeyError [FVal (PStr "conf")])) []
  = (Raise (Exn ApiException
              [FLit "Steam requested confirmation, but returned invalid data (confirmation_id)."]),
     [Post "https://steamcommunity.com/market/buylisting/4242"
        (buy_item_data (PStr "abcdef0123456789") 1000 130 Example.usd)
        (listings_referer (H := Example.imports) Example.csgo "AK-47 | Redline");
      GetConfirmations "aWRlbnRpdHk=" "76561198000000000"]).
Proof.
  apply (buy_item_confirmation_service_fails (H := Example.imports) Example.logged_in
           "AK-47 | Redline" "4242" 1000 130 Example.csgo Example.usd
           (Example.failing_confirmations Example.needs_confirmation
              (Exn KeyError [FVal (PStr "conf")]))
           (PStr "abcdef0123456789") (Example.json_response Example.needs_confirmation)
           Example.needs_confirmation_fields (PInt 22) Example.confirmation_block
           (PStr "15431813067") Example.guard "aWRlbnRpdHk=" "76561198000000000"
           (Exn KeyError [FVal (PStr "conf")]));
    reflexivity.
Defined.

Lemma buy_item_confirmation_step_raises_ApiException_witness :
  exn_cls (Exn ApiException
             [FLit "An error occurred during the second confirmation step: ";
              FExn (Exn ConnectionError [FLit "Connection aborted."])]) = ApiException
  ∨ is_Exception (Exn ApiException
                    [FLit "An error occurred during the second confirmation step: ";
                     FExn (Exn ConnectionError [FLit "Connection aborted."])]) = false.
Proof.
  apply (buy_item_confirmation_step_raises_ApiException (H := Example.imports)
           Example.logged_in "AK-47 | Redline" "4242" 1000 130 Example.csgo Example.usd
           Example.refusing_world (PStr "abcdef0123456789")
           (Example.json_response Example.needs_confirmation)
           Example.needs_confirmation_fields);
    vm_compute; reflexivity.
Defined.

(** ** The substring test *)

Section Substring.

Lemma append_cons a (s t : string) : String a s ++ t = String a (s ++ t).
Proof. reflexivity. Qed.

Lemma prefix_split needle hay :
  String.prefix needle hay = true ↔ ∃ rest, hay = needle ++ rest.
Proof.
  revert hay. induction needle as [| a needle IH]; intros hay.
  - split; [intros _; by exists hay | intros _; by destruct hay].
  - setoid_rewrite append_cons. destruct hay as [| b hay]; simpl.
    + split; [discriminate | intros [rest Hr]; discriminate].
    + destruct (ascii_dec a b) as [-> | Hne].
      * rewrite IH. split; intros [rest Hr]; exists rest; congruence.
      * split; [discriminate | intros [rest Hr]; congruence].
Qed.

(** X30.  The test [needle in text] that [create_sell_order] applies to
    the message, and [get_my_market_listings] to the landing page, holds
    exactly when the text is some prefix, then the needle, then some
    suffix. *)
Theorem contains_split needle hay :
  contains needle hay = true ↔ ∃ before after, hay = before ++ needle ++ after.
Proof.
  assert (Hunfold : ∀ hay,
    contains needle hay
    = if String.prefix needle hay then true
      else match hay with
           | EmptyString => false
           | String _ hay' => contains needle hay'
           end) by (by intros []).
  induction hay as [| a hay IH]; rewrite Hunfold.
  - destruct (String.prefix needle "") eqn:Hp.
    + apply prefix_split in Hp as [rest Hr]. split; [| done].
      intros _. exists "", rest. exact Hr.
    + split; [discriminate |]. intros (before & after & Hs).
      destruct before; [| rewrite append_cons in Hs; discriminate].
      assert (String.prefix needle "" = true) by (apply prefix_split; eauto). congruence.
  - destruct (String.prefix needle (String a hay)) eqn:Hp.
    + apply prefix_split in Hp as [rest Hr]. split; [| done].
      intros _. exists "", rest. exact Hr.
    + rewrite IH. split.
      * intros (before & after & ->). by exists (String a before), after.
      * intros (before & after & Hs). destruct before as [| b before].
        -- assert (String.prefix needle (String a hay) = true)
             by (apply prefix_split; eauto).
           congruence.
        -- rewrite append_cons in Hs. exists before, after. congruence.
Qed.

End Substring.

(** ** Sell orders, continued *)

Section SellOrdersMore.
Context `{Imports}.

(** X18.  Whatever the world answers, [create_sell_order] sends nothing,
    or the one submission, or the submission followed by the one request to
    confirm the sell listing of the submitted asset: it never lists or
    accepts other confirmations and never submits twice. *)
Theorem create_sell_order_trace_shape self assetid game money_to_receive w :
  let run := snd (create_sell_order self assetid game money_to_receive w []) in
  run = []
  ∨ ∃ steamid,
      let submit := Post (COMMUNITY_URL ++ "/market/sellitem/")
                      (create_sell_order_data self assetid game money_to_receive)
                      (inventory_referer steamid) in
      run = [submit]
      ∨ ∃ identity_secret,
          run = [submit; ConfirmSellListing identity_secret steamid assetid].
Proof.
  intros run. subst run. unfold create_sell_order, login_required.
  destruct (was_login_executed self); [| by left].
  rewrite bind_lift. destruct (steam_guard_getitem self "steamid") as [steamid | e] eqn:Hsid;
    [| by left].
  right. exists steamid. cbv zeta.
  rewrite bind_unfold.
  pose proof (session_post_json_trace (COMMUNITY_URL ++ "/market/sellitem/")
                (create_sell_order_data self assetid game money_to_receive)
                (inventory_referer steamid) w []) as Hfirst.
  destruct (session_post_json _ _ _ w []) as [[response | e] t1];
    simpl in Hfirst; subst t1; [| by left].
  repeat (rewrite bind_lift;
          match goal with
          | |- context [match ?x with Ok _ => _ | Raise _ => _ end] =>
              destruct x; [| by left]
          end).
  assert (Hconfirm :
    snd (_confirm_sell_listing self assetid w
           [Post (COMMUNITY_URL ++ "/market/sellitem/")
              (create_sell_order_data self assetid game money_to_receive)
              (inventory_referer steamid)])
    = [Post (COMMUNITY_URL ++ "/market/sellitem/")
         (create_sell_order_data self assetid game money_to_receive)
         (inventory_referer steamid)]
    ∨ ∃ identity_secret,
        snd (_confirm_sell_listing self assetid w
               [Post (COMMUNITY_URL ++ "/market/sellitem/")
                  (create_sell_order_data self assetid game money_to_receive)
                  (inventory_referer steamid)])
        = [Post (COMMUNITY_URL ++ "/market/sellitem/")
             (create_sell_order_data self assetid game money_to_receive)
             (inventory_referer steamid);
           ConfirmSellListing identity_secret steamid assetid]).
  { unfold _confirm_sell_listing.
    rewrite bind_lift.
    destruct (steam_guard_getitem self "identity_secret") as [i | e]; [| by left].
    rewrite bind_lift, Hsid. right. by exists i. }
  rewrite bind_unfold.
  destruct (truthy _).
  - simpl. exact Hconfirm.
  - rewrite bind_lift.
    match goal with
    | |- context [match ?x with Ok _ => _ | Raise _ => _ end] => destruct x; [| by left]
    end.
    simpl. destruct (_ && _)%bool; [exact Hconfirm | by left].
Qed.

End SellOrdersMore.

(** ** Listing retrieval, continued *)

Section ListingsMore.
Context `{Imports}.

(** X7.  Below the threshold exactly one further request is made, the bulk
    request from [n_showing] with [count=-1], whatever the world answers. *)
Theorem bulk_branch_one_request w n_showing n_total listings t :
  n_showing < n_total →
  n_total < 1000 →
  snd (fetch_remaining n_showing n_total listings w t)
  = (t ++ [Get (COMMUNITY_URL ++ "/market/mylistings/render/?query=&start="
                  ++ str_of_Z n_showing ++ "&count=-1")])%list.
Proof.
  intros H1 H2. unfold fetch_remaining.
  destruct (Z.ltb_spec n_showing n_total); [| lia].
  destruct (Z.ltb_spec n_total 1000); [| lia].
  apply fetch_and_merge_trace.
Qed.

Lemma for_fold_app {A S} (xs ys : list A) (acc : S) (body : S → A → M S) w t :
  for_fold (xs ++ ys)%list acc body w t
  = match for_fold xs acc body w t with
    | (Ok acc', t') => for_fold ys acc' body w t'
    | (Raise e, t') => (Raise e, t')
    end.
Proof.
  revert acc t. induction xs as [| x xs IH]; intros acc t; simpl; [reflexivity |].
  rewrite !bind_unfold. destruct (body acc x w t) as [[acc' | e] t']; [apply IH | reflexivity].
Qed.

(** X8.  In the paginated loop, a page answered with a status that is not
    OK ends the loop with an [ApiException] that carries the status: what
    the earlier pages merged is not returned, and no later page is
    requested. *)
Theorem paginated_loop_stops_at_bad_status
    w n_showing offsets listings t (j : nat) i merged t_j r :
  offsets !! j = Some i →
  for_fold (take j offsets) listings
    (λ listings i, fetch_and_merge (page_url (n_showing + i)) listings) w t
  = (Ok merged, t_j) →
  http w (t_j ++ [Get (page_url (n_showing + i))])%list = Ok r →
  status_code r ≠ HTTPStatus_OK →
  for_fold offsets listings
    (λ listings i, fetch_and_merge (page_url (n_showing + i)) listings) w t
  = (Raise (Exn ApiException
              [FLit "There was a problem getting the listings. HTTP code: ";
               FVal (PInt (status_code r))]),
     (t_j ++ [Get (page_url (n_showing + i))])%list).
Proof.
  intros Hi Hpre Hr Hs.
  rewrite <- (take_drop_middle offsets j i Hi) at 1.
  rewrite for_fold_app, Hpre. simpl. rewrite bind_unfold.
  unfold fetch_and_merge at 1, session_get. rewrite bind_perform, Hr.
  destruct (Z.eqb_spec (status_code r) HTTPStatus_OK); [done | reflexivity].
Qed.

End ListingsMore.

Lemma bulk_branch_one_request_witness :
  snd (fetch_remaining (H := Example.imports) 50 200 Example.no_listings Example.listing_world [])
  = [Get "https://steamcommunity.com/market/mylistings/render/?query=&start=50&count=-1"].
Proof.
  apply (bulk_branch_one_request (H := Example.imports) Example.listing_world 50 200
           Example.no_listings []); lia.
Defined.

Lemma paginated_loop_stops_at_bad_status_witness :
  for_fold [0; 100; 200; 300] Example.no_listings
    (λ listings i, fetch_and_merge (H := Example.imports)
                     (page_url (H := Example.imports) (0 + i)) listings)
    Example.failing_third_page []
  = (Raise (Exn ApiException
              [FLit "There was a problem getting the listings. HTTP code: "; FVal (PInt 500)]),
     [Get (page_url (H := Example.imports) 0); Get (page_url (H := Example.imports) 100);
      Get (page_url (H := Example.imports) 200)]).
Proof.
  apply (paginated_loop_stops_at_bad_status (H := Example.imports) Example.failing_third_page
           0 [0; 100; 200; 300] Example.no_listings [] 2 200 Example.no_listings
           [Get (page_url (H := Example.imports) 0); Get (page_url (H := Example.imports) 100)]
           {| status_code := 500; text := "";
              json := Raise (Exn ValueError [FLit "Expecting value"]) |});
    first [reflexivity | vm_compute; reflexivity | vm_compute; discriminate].
Defined.

(** ** Login and the first request *)

Section AfterLogin.
Context `{Imports}.

(** With an account id in the guard record, the trace of [create_sell_order]
    begins with the submission. *)
Lemma create_sell_order_trace_shape_aux self assetid game money_to_receive w steamid :
  steam_guard_getitem self "steamid" = Ok steamid →
  was_login_executed self = true →
  ∃ rest,
    snd (create_sell_order self assetid game money_to_receive w [])
    = Post (COMMUNITY_URL ++ "/market/sellitem/")
        (create_sell_order_data self assetid game money_to_receive)
        (inventory_referer steamid) :: rest.
Proof.
  intros Hsid Hl. unfold create_sell_order. rewrite login_required_passes by done.
  rewrite (bind_lift_Ok _ _ _ _ _ Hsid). cbv zeta. rewrite bind_unfold.
  pose proof (session_post_json_trace (COMMUNITY_URL ++ "/market/sellitem/")
                (create_sell_order_data self assetid game money_to_receive)
                (inventory_referer steamid) w []) as Hfirst.
  destruct (session_post_json _ _ _ w []) as [[response | e] t1];
    simpl in Hfirst; subst t1; [| by exists []].
  assert (Hconfirm : ∀ t, ∃ rest, snd (_confirm_sell_listing self assetid w t) = (t ++ rest)%list).
  { intros t. unfold _confirm_sell_listing. rewrite bind_lift.
    destruct (steam_guard_getitem self "identity_secret"); [| exists []; by rewrite app_nil_r].
    rewrite bind_lift, Hsid. by eexists. }
  repeat (rewrite bind_lift;
          match goal with
          | |- context [match ?x with Ok _ => _ | Raise _ => _ end] =>
              destruct x; [| by exists []]
          end).
  rewrite bind_unfold.
  destruct (truthy _).
  - simpl. apply (Hconfirm [_]).
  - rewrite bind_lift.
    match goal with
    | |- context [match ?x with Ok _ => _ | Raise _ => _ end] => destruct x; [| by exists []]
    end.
    simpl. destruct (_ && _)%bool; [apply (Hconfirm [_]) | by exists []].
Qed.

(** X19.  After [__init__] and [_set_login_executed], [create_sell_order]
    passes the login guard and begins with the submission: its payload
    carries the session id given at login, the asset and an amount of 1, and
    its [Referer] is the inventory page of the account id of the guard
    record. *)
Theorem create_sell_order_after_login
    session (guard : gmap string string) session_id steamid assetid game money_to_receive w :
  guard !! "steamid" = Some steamid →
  let self := _set_login_executed (init session) guard session_id in
  ∃ data headers rest,
    snd (create_sell_order self assetid game money_to_receive w [])
    = Post (COMMUNITY_URL ++ "/market/sellitem/") data headers :: rest
    ∧ data !! "sessionid" = Some (PStr session_id)
    ∧ data !! "assetid" = Some (PStr assetid)
    ∧ data !! "amount" = Some (PInt 1)
    ∧ data !! "price" = Some (PStr money_to_receive)
    ∧ headers !! "Referer"
      = Some (PStr (COMMUNITY_URL ++ "/profiles/" ++ steamid ++ "/inventory")).
Proof.
  intros Hs self.
  destruct (create_sell_order_trace_shape_aux self assetid game money_to_receive w steamid)
    as (rest & Hrest); [unfold steam_guard_getitem; simpl; by rewrite Hs | reflexivity |].
  eexists _, _, rest. split; [exact Hrest |].
  repeat split; reflexivity.
Qed.

(** X2.  Once logged in, [fetch_price_history] makes one GET whose query
    fixes the country to ['PL'] and holds no currency; it raises
    [TooManyRequests] exactly on status 429, whatever the body holds, and
    otherwise its outcome is the decoded body. *)
Theorem fetch_price_history_rate_limit self item_hash_name game w t r :
  was_login_executed self = true →
  let request :=
    GetQuery (COMMUNITY_URL ++ "/market/pricehistory/")
      {[ "country" := PStr "PL";
         "appid" := PStr (app_id game);
         "market_hash_name" := PStr item_hash_name ]} in
  http w (t ++ [request])%list = Ok r →
  fetch_price_history self item_hash_name game w t
  = (if status_code r =? 429 then
       Raise (Exn TooManyRequests [FLit "You can fetch maximum 20 prices in 60s period"])
     else json r,
     (t ++ [request])%list).
Proof.
  intros Hl request Hr. unfold fetch_price_history. rewrite login_required_passes by done.
  cbv zeta. unfold session_get_query. rewrite bind_perform. fold request. rewrite Hr.
  unfold HTTPStatus_TOO_MANY_REQUESTS. destruct (status_code r =? 429); reflexivity.
Qed.

End AfterLogin.

Lemma create_sell_order_after_login_witness :
  ∃ data headers rest,
    snd (create_sell_order (H := Example.imports)
           (_set_login_executed (init Example.session) Example.guard "abcdef0123456789")
           "27181999314" Example.csgo "1500" (Example.always Example.pending_sale) [])
    = Post "https://steamcommunity.com/market/sellitem/" data headers :: rest
    ∧ data !! "sessionid" = Some (PStr "abcdef0123456789")
    ∧ data !! "assetid" = Some (PStr "27181999314")
    ∧ data !! "amount" = Some (PInt 1)
    ∧ data !! "price" = Some (PStr "1500")
    ∧ headers !! "Referer"
      = Some (PStr "https://steamcommunity.com/profiles/76561198000000000/inventory").
Proof.
  apply (create_sell_order_after_login (H := Example.imports) Example.session Example.guard
           "abcdef0123456789" "76561198000000000" "27181999314" Example.csgo "1500"
           (Example.always Example.pending_sale)).
  reflexivity.
Defined.

Lemma fetch_price_history_rate_limit_witness :
  fetch_price_history (H := Example.imports) Example.logged_in "AK-47 | Redline" Example.csgo
    (Example.status_only 429) []
  = (Raise (Exn TooManyRequests [FLit "You can fetch maximum 20 prices in 60s period"]),
     [GetQuery "https://steamcommunity.com/market/pricehistory/"
        {[ "country" := PStr "PL"; "appid" := PStr "730";
           "market_hash_name" := PStr "AK-47 | Redline" ]}]).
Proof.
  apply (fetch_price_history_rate_limit (H := Example.imports) Example.logged_in
           "AK-47 | Redline" Example.csgo (Example.status_only 429) []
           {| status_code := 429; text := "";
              json := Raise (Exn ValueError [FLit "Expecting value"]) |});
    reflexivity.
Defined.

(** ** [buy_item]: the two tests on the first response *)

Section BuyItemTests.
Context `{Imports}.

(** The wallet-success test evaluates to false exactly when [wallet_info]
    is absent or falsy, or is an object whose [success] is not 1.  A truthy
    [wallet_info] that is not an object makes the test raise. *)
Lemma wallet_success_false_iff (d : dict) :
  wallet_success (PDict d) = Ok false
  ↔ match d !! "wallet_info" with
    | None => True
    | Some v =>
        truthy v = false
        ∨ ∃ wallet_info, v = PDict wallet_info
                         ∧ py_eq_int (default PNone (wallet_info !! "success")) 1 = false
    end.
Proof.
  unfold wallet_success, py_get, py_get_default.
  destruct (d !! "wallet_info") as [v |]; simpl; [| done].
  destruct (truthy v) eqn:Hv.
  - destruct v as [| | | | | | wi]; simpl;
      try (split; [discriminate | intros [? | (wi & ? & _)]; discriminate]).
    split.
    + intros [= Hs]. right. exists wi. split; [done |].
      by destruct (wi !! "success").
    + intros [? | (wi' & [= <-] & Hs)]; [discriminate |].
      f_equal. by destruct (wi !! "success").
  - split; [by left | done].
Qed.

(** The confirmation test evaluates to false exactly when [success] is not
    22, or [confirmation] is absent or an object and holds no truthy
    [confirmation_id].  With [success] equal to 22, a [confirmation] that is
    not an object makes the test raise. *)
Lemma confirmation_required_false_iff (d : dict) :
  confirmation_required (PDict d) = Ok false
  ↔ py_eq_int (default PNone (d !! "success")) 22 = false
    ∨ match d !! "confirmation" with
      | None => True
      | Some (PDict confirmation) =>
          truthy (default PNone (confirmation !! "confirmation_id")) = false
      | Some _ => False
      end.
Proof.
  unfold confirmation_required, py_get, py_get_default.
  assert (Hs : match d !! "success" with Some x => x | None => PNone end
               = default PNone (d !! "success")) by (by destruct (d !! "success")).
  rewrite Hs. destruct (py_eq_int (default PNone (d !! "success")) 22).
  - destruct (d !! "confirmation") as [[| | | | | | c] |]; simpl;
      try (split; [discriminate | intros [? | []]; discriminate]).
    + split.
      * intros [= Hc]. right. by destruct (c !! "confirmation_id").
      * intros [? | Hc]; [discriminate |]. f_equal. by destruct (c !! "confirmation_id").
    + split; [by right | done].
  - split; [by left | done].
Qed.

(** A truthy [wallet_info] that is not an object makes the wallet-success
    test raise [AttributeError]; the error leaves [buy_item] after the one
    submission, before the confirmation test is made. *)
Lemma buy_item_wallet_test_raises
    self market_name market_id price fee game currency w sessionid r1 (d : dict) v :
  let url := buylisting_url market_id in
  let headers := listings_referer game market_name in
  let data := buy_item_data sessionid price fee currency in
  was_login_executed self = true →
  get_dict (_session self) "steamcommunity.com" !! "sessionid" = Some sessionid →
  http w [Post url data headers] = Ok r1 →
  json r1 = Ok (PDict d) →
  d !! "wallet_info" = Some v →
  truthy v = true →
  (∀ wallet_info, v ≠ PDict wallet_info) →
  buy_item self market_name market_id price fee game currency w []
  = (Raise (no_attribute v "get"), [Post url data headers]).
Proof.
  intros url headers data Hl Hsid Hr1 Hj1 Hv Ht Hno.
  rewrite (buy_item_first_response _ _ _ _ _ _ _ _ _ _ _ Hl Hsid Hr1 Hj1).
  assert (Hw : wallet_success (PDict d) = Raise (no_attribute v "get")).
  { unfold wallet_success, py_get, py_get_default. rewrite Hv, Ht.
    destruct v; try reflexivity. by destruct (Hno d0). }
  by rewrite (bind_lift_Raise _ _ _ _ _ Hw).
Qed.

End BuyItemTests.

